(** * The cryptocurrency dashboard ([crypto_app.py]): fetch, reshape, present

    A shallow embedding of the dashboard script.  The script is re-run from
    top to bottom on every timer tick or selection change; one such run is
    the function [script] below.  It drives three stages:

    - [fetch_crypto_data]  (lines 27-39): one HTTP GET, memoised by
      [st.cache_data(ttl=600)];
    - [process_data]       (lines 42-51): the raw JSON payload becomes a
      date-indexed table;
    - the presenter        (lines 87-178): metrics and three charts, or a
      banner.

    The interpreter and the libraries the script calls (Python's dict and
    subscript rules, pandas, requests, Streamlit) are described first, each
    only as far as the script uses it.  The library versions are those the
    script is written for: pandas 2 (an integer subscript on a date-indexed
    column is a position), requests 2.27 or later (a body that is not JSON
    raises a [RequestException]) and a Streamlit that has [st.cache_data].
    Time is counted in milliseconds. *)

From Stdlib Require Import PrimFloat Ascii String.
From stdpp Require Import gmap strings list pretty.

Set Default Proof Using "Type".
Set Warnings "-register-all".

(** ** Python values *)

Module Py.

(** What [response.json()] can return.  Numbers keep Python's split between
    [int] (unbounded) and [float] (IEEE binary64, here the kernel's primitive
    floats).  [JNull] is Python's [None].  A [string] is a sequence of
    characters, one [ascii] each. *)
Inductive json : Type :=
| JNull
| JBool (b : bool)
| JInt (z : Z)
| JFloat (f : float)
| JStr (s : string)
| JArr (items : list json)
| JObj (fields : list (string * json)).

(** Exceptions the script can meet. *)
Inductive exn : Type :=
| KeyError (key : string)
| TypeError
| IndexError
| ValueError
| OutOfBoundsDatetime.

(** The result of evaluating an expression.  [OutOfModel] marks an input on
    which the library behaviour depends on parts of pandas that are not
    described in this file (dtype inference over mixed columns, frames built
    from dicts, ...); nothing is stated about such inputs. *)
Inductive outcome (A : Type) : Type :=
| Ok (a : A)
| Raise (e : exn)
| OutOfModel.
Arguments Ok {A} a.
Arguments Raise {A} e.
Arguments OutOfModel {A}.

Definition obind {A B} (o : outcome A) (k : A → outcome B) : outcome B :=
  match o with
  | Ok a => k a
  | Raise e => Raise e
  | OutOfModel => OutOfModel
  end.

#[global] Instance outcome_ret : MRet outcome := @Ok.
#[global] Instance outcome_bind : MBind outcome := λ A B k o, obind o k.

(** [[f(x) for x in xs]]: stops at the first raise. *)
Fixpoint omap {A B} (f : A → outcome B) (xs : list A) : outcome (list B) :=
  match xs with
  | [] => Ok []
  | x :: xs' => y ← f x; ys ← omap f xs'; Ok (y :: ys)
  end.

(** *** dict: insertion-ordered, one binding per key *)

Section dict.
Context {V : Type}.

Fixpoint dict_get (k : string) (d : list (string * V)) : option V :=
  match d with
  | [] => None
  | (k', v) :: d' => if String.eqb k k' then Some v else dict_get k d'
  end.

(** [d[k] = v]: an existing key keeps its position and takes the new
    value; a new key goes to the end. *)
Fixpoint dict_set (k : string) (v : V) (d : list (string * V)) : list (string * V) :=
  match d with
  | [] => [(k, v)]
  | (k', v') :: d' =>
      if String.eqb k k' then (k', v) :: d' else (k', v') :: dict_set k v d'
  end.

(** A dict display [{k1: v1, k2: v2, ...}] stores its items left to right. *)
Definition dict_display (items : list (string * V)) : list (string * V) :=
  foldl (λ d kv, dict_set kv.1 kv.2 d) [] items.

Definition dict_keys (d : list (string * V)) : list string := d.*1.

(** [d[k]] *)
Definition dict_getitem (d : list (string * V)) (k : string) : outcome V :=
  match dict_get k d with
  | Some v => Ok v
  | None => Raise (KeyError k)
  end.
End dict.

(** *** Truth value, subscripts, iteration *)

Definition is_nil {A} (l : list A) : bool :=
  match l with [] => true | _ => false end.

(** [bool(v)]: [None], [False], zero, and empty containers are false.  Both
    zeros of binary64 are false, a NaN is true. *)
Definition truthy (v : json) : bool :=
  match v with
  | JNull => false
  | JBool b => b
  | JInt z => negb (z =? 0)%Z
  | JFloat f => negb (PrimFloat.eqb f 0%float)
  | JStr s => negb (String.eqb s "")
  | JArr items => negb (is_nil items)
  | JObj fields => negb (is_nil fields)
  end.

Definition char (c : ascii) : json := JStr (String c EmptyString).

(** [v[k]] for a string [k].  Only a dict accepts a string subscript. *)
Definition getitem_str (v : json) (k : string) : outcome json :=
  match v with
  | JObj fields => dict_getitem fields k
  | _ => Raise TypeError
  end.

(** [v[i]] for a literal index [i >= 0]. *)
Definition getitem_nat (v : json) (i : nat) : outcome json :=
  match v with
  | JArr items =>
      match items !! i with Some x => Ok x | None => Raise IndexError end
  | JStr s =>
      match String.get i s with Some c => Ok (char c) | None => Raise IndexError end
  | JObj _ => Raise (KeyError (pretty i))
  | _ => Raise TypeError
  end.

(** The items [for x in v] visits: the elements of a list, the characters of
    a string, the keys of a dict. *)
Definition iter (v : json) : outcome (list json) :=
  match v with
  | JArr items => Ok items
  | JStr s => Ok (char <$> list_ascii_of_string s)
  | JObj fields => Ok (JStr <$> dict_keys fields)
  | _ => Raise TypeError
  end.

End Py.
Import Py.

(** ** pandas (2.x), as far as the script uses it *)

Module pd.

(** A [datetime64[ns]] value: nanoseconds since the epoch, or [NaT]. *)
Inductive datetime : Type :=
| Timestamp (ns : Z)
| NaT.

(** A column.  [Values] cells keep the JSON value they were built from, with
    [JNull] for a missing cell (None / NaN); the dtype pandas infers for the
    column is recomputed where the script depends on it ([float64] below).
    [Datetimes] is a [datetime64[ns]] column. *)
Inductive Series : Type :=
| Values (cells : list json)
| Datetimes (ts : list datetime).

Inductive Index : Type :=
| RangeIndex (n : nat)
| DatetimeIndex (ts : list datetime)
| ObjectIndex (labels : list json).

(** A frame: its row index and its columns, in column order.  Every
    operation below keeps each column as long as the index. *)
Record DataFrame : Type := {
  index : Index;
  columns : list (string * Series);
}.

Definition missing : json := JNull.

Definition Series_len (s : Series) : nat :=
  match s with
  | Values cells => length cells
  | Datetimes ts => length ts
  end.

Definition Index_len (i : Index) : nat :=
  match i with
  | RangeIndex n => n
  | DatetimeIndex ts => length ts
  | ObjectIndex labels => length labels
  end.

(** [len(df)] *)
Definition len (df : DataFrame) : nat := Index_len (index df).

(** [df.empty]: some axis has length 0. *)
Definition empty (df : DataFrame) : bool :=
  (len df =? 0) || is_nil (columns df).

(** [pd.DataFrame()] *)
Definition DataFrame0 : DataFrame :=
  {| index := RangeIndex 0; columns := [] |}.

Definition as_list (v : json) : option (list json) :=
  match v with JArr items => Some items | _ => None end.

Definition as_int (v : json) : option Z :=
  match v with JInt z => Some z | _ => None end.

Definition as_float (v : json) : option float :=
  match v with JFloat f => Some f | _ => None end.

Definition is_float (v : json) : bool :=
  match v with JFloat _ => true | _ => false end.

Definition is_null (v : json) : bool :=
  match v with JNull => true | _ => false end.

Definition is_scalar (v : json) : bool :=
  match v with JArr _ | JObj _ => false | _ => true end.

(** [pd.DataFrame(data, columns=cols)].
    - [None] and the empty list give a frame with the named columns and no
      rows.
    - A scalar is refused ("DataFrame constructor not properly called!").
    - A list of lists is one row per inner list: rows shorter than the
      widest are filled with missing cells, and the width must be the
      number of column names ("2 columns passed, passed data had 3
      columns").
    Other shapes (dicts, lists mixing rows with other values) are outside
    the model. *)
Definition DataFrame_new (data : json) (cols : list string) : outcome DataFrame :=
  match data with
  | JNull | JArr [] =>
      Ok {| index := RangeIndex 0; columns := (λ c, (c, Values [])) <$> cols |}
  | JBool _ | JInt _ | JFloat _ | JStr _ => Raise ValueError
  | JArr rows =>
      match mapM as_list rows with
      | Some rs =>
          if max_list (length <$> rs) =? length cols then
            Ok {| index := RangeIndex (length rs);
                  columns :=
                    imap (λ j c, (c, Values ((λ r, default missing (r !! j)) <$> rs))) cols |}
          else Raise ValueError
      | None => OutOfModel
      end
  | JObj _ => OutOfModel
  end.

(** [df[key]] *)
Definition getitem (df : DataFrame) (key : string) : outcome Series :=
  dict_getitem (columns df) key.

Definition reindexed_missing (n : nat) (s : Series) : Series :=
  match s with
  | Values _ => Values (replicate n missing)
  | Datetimes _ => Datetimes (replicate n NaT)
  end.

(** [df[key] = value] for a Python list [value] of scalars.
    - A frame without rows takes its index from a non-empty [value]: it
      gets one row per item and its existing columns are filled with
      missing cells ([_ensure_valid_index]).
    - Otherwise the lengths must agree ("Length of values (k) does not match
      length of index (n)").
    Lists whose items are themselves containers go through pandas's 2-D
    assignment and are outside the model. *)
Definition setitem (df : DataFrame) (key : string) (value : list json) : outcome DataFrame :=
  if negb (forallb is_scalar value) then OutOfModel
  else if (len df =? 0) && negb (is_nil value) then
    Ok {| index := RangeIndex (length value);
          columns := dict_set key (Values value)
                       (prod_map id (reindexed_missing (length value)) <$> columns df) |}
  else if negb (length value =? len df) then Raise ValueError
  else Ok {| index := index df; columns := dict_set key (Values value) (columns df) |}.

(** [df[key] = s] for a Series [s] that carries the frame's own index. *)
Definition setitem_aligned (df : DataFrame) (key : string) (s : Series) : DataFrame :=
  {| index := index df; columns := dict_set key s (columns df) |}.

(** Bounds of [datetime64[ns]]: an int64 count of nanoseconds, the minimum
    being reserved for NaT. *)
Definition int64_max : Z := 2 ^ 63 - 1.
Definition ms_to_ns (ms : Z) : Z := ms * 1000000.
Definition in_int64 (z : Z) : bool := (- int64_max <=? z)%Z && (z <=? int64_max)%Z.
Definition in_bounds (ms : Z) : bool := in_int64 (ms_to_ns ms).

(** [pd.to_datetime(s, unit='ms')].
    - Missing cells become NaT.
    - An int64 column of epoch milliseconds is scaled to nanoseconds; a
      value that does not fit raises OutOfBoundsDatetime.
    Columns of other content (floats, strings, mixed) are outside the
    model. *)
Definition to_datetime_ms (s : Series) : outcome Series :=
  match s with
  | Datetimes _ => OutOfModel
  | Values cells =>
      if forallb is_null cells then Ok (Datetimes (replicate (length cells) NaT))
      else
        match mapM as_int cells with
        | Some zs =>
            if negb (forallb in_int64 zs) then OutOfModel
            else if forallb in_bounds zs then
              Ok (Datetimes ((λ z, Timestamp (ms_to_ns z)) <$> zs))
            else Raise OutOfBoundsDatetime
        | None => OutOfModel
        end
  end.

Definition Index_of (s : Series) : Index :=
  match s with
  | Values cells => ObjectIndex cells
  | Datetimes ts => DatetimeIndex ts
  end.

Fixpoint dict_del {V} (k : string) (d : list (string * V)) : list (string * V) :=
  match d with
  | [] => []
  | (k', v) :: d' => if String.eqb k k' then d' else (k', v) :: dict_del k d'
  end.

(** [df.set_index(key, inplace=True)]: the column becomes the index and
    leaves the columns. *)
Definition set_index (df : DataFrame) (key : string) : outcome DataFrame :=
  s ← getitem df key;
  Ok {| index := Index_of s; columns := dict_del key (columns df) |}.

(** numpy's [a[k]] on a 1-D array: a negative [k] counts from the end. *)
Definition positional {A} (xs : list A) (k : Z) : outcome A :=
  let n := Z.of_nat (length xs) in
  let i := if (k <? 0)%Z then (k + n)%Z else k in
  if (0 <=? i)%Z && (i <? n)%Z then
    match xs !! Z.to_nat i with Some x => Ok x | None => Raise IndexError end
  else Raise IndexError.

(** [s[k]] for an integer [k], [s] a column of a frame with index [idx].
    On an integer index [k] is a label; on an index that holds no integers
    (here: dates) pandas 2 falls back to the position. *)
Definition Series_getitem (idx : Index) (s : Series) (k : Z) : outcome json :=
  match s, idx with
  | Values cells, DatetimeIndex _ => positional cells k
  | Values cells, RangeIndex n =>
      if (0 <=? k)%Z && (k <? Z.of_nat n)%Z then positional cells k
      else Raise (KeyError (pretty k))
  | _, _ => OutOfModel
  end.

(** A column is [float64] when it is not empty and all its cells are
    floats; its items are then numpy float64 scalars. *)
Definition float64 (s : Series) : bool :=
  match s with
  | Values cells => negb (is_nil cells) && forallb is_float cells
  | Datetimes _ => false
  end.

Definition np_float64 (s : Series) (c : json) : outcome float :=
  match as_float c with
  | Some f => if float64 s then Ok f else OutOfModel
  | None => OutOfModel
  end.

End pd.

(** ** requests *)

Module requests.

(** A received response.  [body] is what decoding the body as JSON gives:
    the value, or the decoder's complaint when the body is not JSON. *)
Record Response : Type := {
  url : string;
  status_code : Z;
  reason : string;
  body : string + json;
}.

(** The exceptions of [requests.exceptions]; every one of them is a
    [RequestException] (the JSON one since requests 2.27). *)
Inductive RequestException : Type :=
| ConnectionError (msg : string)
| HTTPError (msg : string)
| JSONDecodeError (msg : string).

(** [str(e)] *)
Definition str (e : RequestException) : string :=
  match e with
  | ConnectionError msg | HTTPError msg | JSONDecodeError msg => msg
  end.

(** [response.raise_for_status()]: raises for the client-error range
    400-499 and the server-error range 500-599, and for no other status. *)
Definition raise_for_status (r : Response) : RequestException + unit :=
  if (400 <=? status_code r)%Z && (status_code r <? 500)%Z then
    inl (HTTPError (pretty (status_code r) +:+ " Client Error: " +:+ reason r
                      +:+ " for url: " +:+ url r))
  else if (500 <=? status_code r)%Z && (status_code r <? 600)%Z then
    inl (HTTPError (pretty (status_code r) +:+ " Server Error: " +:+ reason r
                      +:+ " for url: " +:+ url r))
  else inr ().

(** [response.json()] *)
Definition json (r : Response) : RequestException + Py.json :=
  match body r with
  | inl msg => inl (JSONDecodeError msg)
  | inr v => inr v
  end.

(** The outside world as [requests.get] sees it: what a GET of a URL, sent
    at a given time (milliseconds), comes back with. *)
Definition network : Type := Z → string → RequestException + Response.

End requests.

(** ** Streamlit *)

Module st.

Inductive trace : Type := Scatter | Bar | Histogram.

Inductive axis : Type :=
| OfIndex (i : pd.Index)
| OfSeries (s : pd.Series).

Record Figure : Type := {
  kind : trace;
  x : axis;
  y : option pd.Series;
  layout_title : string;
}.

(** What a run puts on the page, in order.  Numbers are kept as numbers:
    the format specs of the f-strings ([:,.2f]) are not applied. *)
Inductive element : Type :=
| set_page_config (page_title : string)
| title (body : string)
| markdown (body : string)
| sidebar_header (body : string)
| sidebar_selectbox (label : string) (options : list string)
| info (body : string)
| error (body : string)
| warning (body : string)
| subheader (body : string)
| metric (label : string) (value : json) (delta : option (float * float))
| plotly_chart (fig : Figure)
| footer (now : Z)
| write (body : string).

Definition is_chart (e : element) : bool :=
  match e with plotly_chart _ => true | _ => false end.

(** One memoised call of a cached function: when it was stored, what it
    returned, and the elements it drew (replayed on a hit). *)
Record entry : Type := {
  stored_at : Z;
  value : json;
  replay : list element;
}.

(** The state a run works on: the memo of [st.cache_data] (it outlives the
    run), the page drawn so far, and the GET requests sent so far as
    (time, URL). *)
Record world : Type := {
  memo : gmap (string * Z) entry;
  page : list element;
  sent : list (Z * string);
}.

(** Statements of the script: state passing, with Python's exceptions. *)
Definition M (A : Type) : Type := world → outcome A * world.

Definition ret {A} (a : A) : M A := λ w, (Ok a, w).

Definition bind {A B} (m : M A) (k : A → M B) : M B :=
  λ w, match m w with
       | (Ok a, w') => k a w'
       | (Raise e, w') => (Raise e, w')
       | (OutOfModel, w') => (OutOfModel, w')
       end.

Definition lift {A} (o : outcome A) : M A := λ w, (o, w).

Definition draw (e : element) : M unit :=
  λ w, (Ok (), {| memo := memo w; page := page w ++ [e]; sent := sent w |}).

(** [requests.get(url)]: the request is sent, the network answers. *)
Definition requests_get (net : requests.network) (now : Z) (u : string)
  : M (requests.RequestException + requests.Response) :=
  λ w, (Ok (net now u),
        {| memo := memo w; page := page w; sent := sent w ++ [(now, u)] |}).

(** [@st.cache_data(ttl=ttl)] around a function of (coin_id, days), called
    at time [now] (milliseconds; [ttl] is in seconds).
    - A stored entry younger than [ttl] is a hit: the function is not run,
      its stored elements are drawn again and its stored value returned.
    - Otherwise the function runs; when it returns, the value (whatever it
      is, [None] included) is stored together with the elements it drew.
      An exception escapes without being stored. *)
Definition cache_data (ttl : Z) (f : string → Z → M json) (now : Z)
  (coin_id : string) (days : Z) : M json :=
  λ w,
    let run :=
      match f coin_id days w with
      | (Ok v, w') =>
          let drawn := drop (length (page w)) (page w') in
          (Ok v,
           {| memo := <[(coin_id, days) := {| stored_at := now; value := v; replay := drawn |}]>
                        (memo w');
              page := page w'; sent := sent w' |})
      | r => r
      end in
    match memo w !! (coin_id, days) with
    | Some e =>
        if (now <? stored_at e + ttl * 1000)%Z then
          (Ok (value e),
           {| memo := memo w; page := page w ++ replay e; sent := sent w |})
        else run
    | None => run
    end.

End st.

#[global] Instance M_ret : MRet st.M := @st.ret.
#[global] Instance M_bind : MBind st.M := λ A B k m, st.bind m k.

(** ** The script *)

Import pd st.

(** The auto-refresh timer of line 9: a rerun every 15 seconds
    (milliseconds). *)
Definition interval : Z := 15 * 1000.

(** *** 1. Data fetching (lines 27-39) *)

Definition is_lower (c : ascii) : bool :=
  (97 <=? nat_of_ascii c) && (nat_of_ascii c <=? 122).
Definition is_upper (c : ascii) : bool :=
  (65 <=? nat_of_ascii c) && (nat_of_ascii c <=? 90).
Definition to_upper (c : ascii) : ascii := ascii_of_nat (nat_of_ascii c - 32).
Definition to_lower (c : ascii) : ascii := ascii_of_nat (nat_of_ascii c + 32).

(** [s.title()] on ASCII text: a letter that follows a letter is lower
    case, any other letter is upper case. *)
Fixpoint title_from (prev_cased : bool) (s : string) : string :=
  match s with
  | EmptyString => EmptyString
  | String c s' =>
      if is_lower c then
        String (if prev_cased then c else to_upper c) (title_from true s')
      else if is_upper c then
        String (if prev_cased then to_lower c else c) (title_from true s')
      else String c (title_from false s')
  end.
Definition str_title (s : string) : string := title_from false s.

Definition market_chart_url (coin_id : string) (days : Z) : string :=
  "https://api.coingecko.com/api/v3/coins/" +:+ coin_id
    +:+ "/market_chart?vs_currency=usd&days=" +:+ pretty days.

(** The [try] block: the first exception skips the rest. *)
Definition response_data (got : requests.RequestException + requests.Response)
  : requests.RequestException + json :=
  match got with
  | inl e => inl e
  | inr response =>
      match requests.raise_for_status response with
      | inl e => inl e
      | inr _ => requests.json response
      end
  end.

(** The function as written, before the decorator is applied. *)
Definition fetch_crypto_data_body (net : requests.network) (now : Z)
  (coin_id : string) (days : Z) : M json :=
  draw (info ("Fetching latest data for " +:+ str_title coin_id +:+ "..."));;
  got ← requests_get net now (market_chart_url coin_id days);
  match response_data got with
  | inr data => mret data
  | inl e =>
      draw (error ("Error fetching data: " +:+ requests.str e));;
      mret JNull
  end.

Definition ttl : Z := 600.

Definition fetch_crypto_data (net : requests.network) (now : Z)
  : string → Z → M json :=
  cache_data ttl (fetch_crypto_data_body net now) now.

(** *** 2. Data processing (lines 42-51) *)

Definition process_data (raw_data : json) : outcome DataFrame :=
  if negb (truthy raw_data) then Ok DataFrame0
  else
    prices ← getitem_str raw_data "prices";
    df ← DataFrame_new prices ["timestamp"; "price"];
    total_volumes ← getitem_str raw_data "total_volumes";
    vols ← iter total_volumes;
    volume ← omap (λ vol, getitem_nat vol 1) vols;
    df ← setitem df "volume" volume;
    timestamp ← getitem df "timestamp";
    date ← to_datetime_ms timestamp;
    set_index (setitem_aligned df "date" date) "date".

(** *** 3. Sidebar (lines 56-78) *)

Definition COIN_MAP : list (string * string) :=
  dict_display [
    ("BTC", "bitcoin");
    ("ETH", "ethereum");
    ("DOGE", "dogecoin");
    ("XRP", "ripple");
    ("XRP", "ripple");
    ("TETH", "tether");
    ("BNB", "binancecoin");
    ("SOL", "solana");
    ("USDC", "usd-coin");
    ("STETH", "staked-ether");
    ("TRON", "tron");
    ("CARD", "cardano");
    ("WSTE", "wrapped-steth");
    ("CHAI", "chainlink");
    ("PI", "pi-network")
  ].

Definition DAYS : Z := 60.

(** *** Main logic (lines 85-183) *)

(** Lines 93-96. *)
Record Metrics : Type := {
  latest_price : float;
  prev_price : float;
  price_change : float;
  price_change_pct : float;
}.

Definition key_metrics (df : DataFrame) : outcome Metrics :=
  price ← getitem df "price";
  latest ← Series_getitem (index df) price (-1);
  prev ← Series_getitem (index df) price (-2);
  latest_price ← np_float64 price latest;
  prev_price ← np_float64 price prev;
  let price_change := (latest_price - prev_price)%float in
  let price_change_pct := ((price_change / prev_price) * 100)%float in
  Ok {| latest_price := latest_price; prev_price := prev_price;
        price_change := price_change; price_change_pct := price_change_pct |}.

(** Lines 98-111: the three metric tiles. *)
Definition metric_tiles (df : DataFrame) (m : Metrics) : M unit :=
  draw (metric "Latest Price (USD)" (JFloat (latest_price m))
          (Some (price_change m, price_change_pct m)));;
  last_volume ← lift (volume ← getitem df "volume";
                      last ← Series_getitem (index df) volume (-1);
                      np_float64 volume last);
  draw (metric "24h Trading Volume (USD)" (JFloat last_volume) None);;
  draw (metric "Data Points Fetched" (JInt (Z.of_nat (len df))) None).

(** Lines 113-173: the three charts. *)
Definition charts (selected_coin_name : string) (df : DataFrame) : M unit :=
  draw (subheader ("Price Trend Over the Last " +:+ pretty DAYS +:+ " Days"));;
  price ← lift (getitem df "price");
  draw (plotly_chart {| kind := Scatter; x := OfIndex (index df); y := Some price;
                        layout_title := selected_coin_name +:+ " Price Trend" |});;
  draw (subheader "Daily Trading Volume");;
  volume ← lift (getitem df "volume");
  draw (plotly_chart {| kind := Bar; x := OfIndex (index df); y := Some volume;
                        layout_title := selected_coin_name +:+ " Trading Volume" |});;
  draw (subheader "Price Distribution");;
  draw (plotly_chart {| kind := Histogram; x := OfSeries price; y := None;
                        layout_title := selected_coin_name +:+ " Price Distribution" |}).

(** Lines 90-176: what is shown for a processed table. *)
Definition presenter (selected_coin_name : string) (df : DataFrame) : M unit :=
  if negb (empty df) then
    draw (subheader ("Key Metrics for " +:+ selected_coin_name));;
    m ← lift (key_metrics df);
    metric_tiles df m;;
    charts selected_coin_name df
  else draw (warning "Could not process the fetched data.").

(** One run of the script, at time [now], with [selected_coin_name] the
    entry the select box holds and [count] the value [st_autorefresh]
    returns. *)
Definition script (net : requests.network) (now : Z) (count : Z)
  (selected_coin_name : string) : M unit :=
  draw (set_page_config "Interactive Crypto Dashboard");;
  draw (title "Interactive Cryptocurrency Dashboard");;
  draw (markdown "
This dashboard allows you to analyze real-time market data for popular cryptocurrencies. 
Select a coin from the dropdown to get started. The data is fetched live from the CoinGecko API.
");;
  draw (sidebar_header "Dashboard Controls");;
  draw (sidebar_selectbox "Select a Cryptocurrency" (dict_keys COIN_MAP));;
  selected_coin_id ← lift (dict_getitem COIN_MAP selected_coin_name);
  raw_data ← fetch_crypto_data net now selected_coin_id DAYS;
  (if truthy raw_data then
     df ← lift (process_data raw_data);
     presenter selected_coin_name df
   else draw (error "Failed to fetch data from the API. Please try again later."));;
  draw (markdown "---");;
  draw (footer now);;
  draw (write ("Auto-refresh count: " +:+ pretty count)).

(** A run starts on a blank page with the memo the previous runs left. *)
Definition fresh_page (w : world) : world :=
  {| memo := memo w; page := []; sent := sent w |}.

Definition rerun (net : requests.network) (now : Z) (count : Z)
  (selected_coin_name : string) (w : world) : outcome unit * world :=
  script net now count selected_coin_name (fresh_page w).

Definition cold : world := {| memo := ∅; page := []; sent := [] |}.

(** The provider's encoding of an (epoch milliseconds, amount) pair. *)
Definition pair_row (e : Z * float) : json := JArr [JInt e.1; JFloat e.2].

(** Row [i] of a processed table as the data model describes it: the
    timestamp it is keyed by, its price and its volume. *)
Definition row (df : DataFrame) (i : nat) : option (datetime * json * json) :=
  match index df, dict_get "price" (columns df), dict_get "volume" (columns df) with
  | DatetimeIndex ts, Some (Values prices), Some (Values volumes) =>
      t ← ts !! i; p ← prices !! i; v ← volumes !! i; Some (t, p, v)
  | _, _, _ => None
  end.

(** ** Vocabulary of the statements *)

(** A payload of two aligned pairs, priced 100 and 110. *)
Definition two_prices : list (Z * float) :=
  [(1700000000000%Z, 100%float); (1700000060000%Z, 110%float)].
Definition two_volumes : list (Z * float) :=
  [(1700000000000%Z, 5%float); (1700000060000%Z, 6%float)].
Definition two_rows : list (string * json) :=
  [("prices", JArr (pair_row <$> two_prices));
   ("total_volumes", JArr (pair_row <$> two_volumes))].

(** The payload [{"prices": [], "total_volumes": [[1700000000000, 5.0]]}]. *)
Definition no_prices_one_volume : json :=
  JObj [("prices", JArr []);
        ("total_volumes", JArr [pair_row (1700000000000%Z, 5%float)])].

(** The payload [{"prices": [[1700000000000, 100.0]],
    "total_volumes": [[1700000000000, 5.0]]}]: one data point. *)
Definition one_row : json :=
  JObj [("prices", JArr [pair_row (1700000000000%Z, 100%float)]);
        ("total_volumes", JArr [pair_row (1700000000000%Z, 5%float)])].

(** The provider answers every GET with the given status and JSON body. *)
Definition answers (status : Z) (payload : json) : requests.network :=
  λ _ u, inr {| requests.url := u; requests.status_code := status;
                requests.reason := "OK"; requests.body := inr payload |}.

(** Whether the memo holds an entry for the arguments that is younger than
    the time-to-live at time [now]. *)
Definition fresh (w : world) (now : Z) (coin_id : string) (days : Z) : bool :=
  match memo w !! (coin_id, days) with
  | Some e => (now <? stored_at e + ttl * 1000)%Z
  | None => false
  end.

(** What the function body returns and draws for a given answer of the
    network. *)
Definition fetched (got : requests.RequestException + requests.Response) : json :=
  match response_data got with
  | inr data => data
  | inl _ => JNull
  end.

Definition notices (coin_id : string)
  (got : requests.RequestException + requests.Response) : list element :=
  info ("Fetching latest data for " +:+ str_title coin_id +:+ "...") ::
  match response_data got with
  | inr _ => []
  | inl e => [error ("Error fetching data: " +:+ requests.str e)]
  end.

(** Repeated calls with the same arguments, one after the other. *)
Fixpoint fetch_at (net : requests.network) (coin_id : string) (days : Z)
  (times : list Z) : M (list json) :=
  match times with
  | [] => mret []
  | t :: times' =>
      v ← fetch_crypto_data net t coin_id days;
      vs ← fetch_at net coin_id days times';
      mret (v :: vs)
  end.

(** The network is down: every GET raises a connection error. *)
Definition down : requests.network :=
  λ _ _, inl (requests.ConnectionError "Max retries exceeded").

Definition header : list element :=
  [set_page_config "Interactive Crypto Dashboard";
   title "Interactive Cryptocurrency Dashboard";
   markdown "
This dashboard allows you to analyze real-time market data for popular cryptocurrencies. 
Select a coin from the dropdown to get started. The data is fetched live from the CoinGecko API.
";
   sidebar_header "Dashboard Controls";
   sidebar_selectbox "Select a Cryptocurrency" (dict_keys COIN_MAP)].

Definition trailer (now count : Z) : list element :=
  [markdown "---"; footer now; write ("Auto-refresh count: " +:+ pretty count)].

Definition fetch_failed_banner : element :=
  error "Failed to fetch data from the API. Please try again later.".

(** The state after the fetch of a run that found no fresh entry. *)
Definition fetched_world (net : requests.network) (now : Z) (id : string) (w : world) : world :=
  let got := net now (market_chart_url id DAYS) in
  {| memo := <[(id, DAYS) := {| stored_at := now; value := fetched got;
                                replay := notices id got |}]> (memo w);
     page := header ++ notices id got;
     sent := sent w ++ [(now, market_chart_url id DAYS)] |}.

Definition finish (now count : Z) (r : outcome unit * world) : outcome unit * world :=
  match r with
  | (Ok _, w) =>
      (Ok (), {| memo := memo w; page := page w ++ trailer now count; sent := sent w |})
  | (Raise e, w) => (Raise e, w)
  | (OutOfModel, w) => (OutOfModel, w)
  end.

(** Statements that neither send a request nor touch the memo. *)
Definition quiet {A} (m : M A) : Prop :=
  ∀ w, sent (m w).2 = sent w ∧ memo (m w).2 = memo w.




(** The body [{"error": "coin not found"}], received with status 200. *)
Definition error_body : json := JObj [("error", JStr "coin not found")].

(** Lines 87-178: what a run shows for the value the fetcher returned. *)
Definition render (selected_coin_name : string) (raw_data : json) : M unit :=
  if truthy raw_data then
    df ← lift (process_data raw_data);
    presenter selected_coin_name df
  else draw fetch_failed_banner.

(** The state after the fetch of a run that was served from the entry [e]
    of the memo. *)
Definition replayed_world (e : entry) (w : world) : world :=
  {| memo := memo w; page := header ++ replay e; sent := sent w |}.

(** The ten elements of a rendered dashboard, lines 92-173. *)
Definition dashboard (selected_coin_name : string) (idx : Index)
  (price volume : Series) (m : Metrics) (last_volume : float) : list element :=
  [subheader ("Key Metrics for " +:+ selected_coin_name);
   metric "Latest Price (USD)" (JFloat (latest_price m))
     (Some (price_change m, price_change_pct m));
   metric "24h Trading Volume (USD)" (JFloat last_volume) None;
   metric "Data Points Fetched" (JInt (Z.of_nat (Index_len idx))) None;
   subheader ("Price Trend Over the Last " +:+ pretty DAYS +:+ " Days");
   plotly_chart {| kind := Scatter; x := OfIndex idx; y := Some price;
                   layout_title := selected_coin_name +:+ " Price Trend" |};
   subheader "Daily Trading Volume";
   plotly_chart {| kind := Bar; x := OfIndex idx; y := Some volume;
                   layout_title := selected_coin_name +:+ " Trading Volume" |};
   subheader "Price Distribution";
   plotly_chart {| kind := Histogram; x := OfSeries price; y := None;
                   layout_title := selected_coin_name +:+ " Price Distribution" |}].

(** The payload [{"prices": [[10000000000000000, 100.0]],
    "total_volumes": [[10000000000000000, 5.0]]}]. *)
Definition far_future : json :=
  JObj [("prices", JArr [JArr [JInt 10000000000000000; JFloat 100]]);
        ("total_volumes", JArr [JArr [JInt 10000000000000000; JFloat 5]])].

(** The timestamp columns [pd.to_datetime] is described for: all cells
    missing, or all cells integers that fit int64. *)
Definition stamps_covered (cells : list json) : Prop :=
  forallb is_null cells = true ∨
  ∃ zs, cells = JInt <$> zs ∧ Forall (λ z, in_int64 z = true) zs.

(** The payloads on which every pandas operation of [process_data] is
    described above: [prices] (when there is one) is a scalar, null, or a
    list of lists whose first items are all integers that fit int64 or are
    all missing; and the second item of every [total_volumes] entry (when
    it has one) is a scalar. *)
Definition covered (raw_data : json) : Prop :=
  (∀ prices, getitem_str raw_data "prices" = Ok prices →
     is_scalar prices = true ∨
     ∃ rs : list (list json),
       prices = JArr (JArr <$> rs) ∧
       stamps_covered ((λ r, default missing (r !! 0)) <$> rs)) ∧
  (∀ total_volumes vols,
     getitem_str raw_data "total_volumes" = Ok total_volumes →
     iter total_volumes = Ok vols →
     Forall (λ vol, ∀ v, getitem_nat vol 1 = Ok v → is_scalar v = true) vols).

(** * Properties *)

Lemma bind_Ok {A B} (a : A) (k : A → outcome B) : Ok a ≫= k = k a.
Proof. done. Qed.

(** ** The transformer *)

Section transformer.
Implicit Types (ps vs : list (Z * float)) (fields : list (string * json)).

Lemma dict_getitem_Some fields k v :
  dict_get k fields = Some v → getitem_str (JObj fields) k = Ok v.
Proof. intros H. unfold getitem_str, dict_getitem. by rewrite H. Qed.

Lemma truthy_has_key fields k v :
  dict_get k fields = Some v → truthy (JObj fields) = true.
Proof. by destruct fields. Qed.

Lemma rows_of_pairs ps :
  mapM as_list (pair_row <$> ps) = Some ((λ e, [JInt e.1; JFloat e.2]) <$> ps).
Proof.
  induction ps as [|e ps IH]; [done|].
  rewrite !fmap_cons. cbn [mapM]. rewrite IH. done.
Qed.

Lemma width_of_pairs ps :
  ps ≠ [] → max_list (length <$> ((λ e, [JInt e.1; JFloat e.2]) <$> ps)) = 2.
Proof.
  intros Hne.
  assert (∀ qs : list (Z * float),
    max_list (length <$> ((λ e, [JInt e.1; JFloat e.2]) <$> qs)) =
      match qs with [] => 0 | _ => 2 end) as Hw.
  { induction qs as [|e qs IH]; [done|].
    rewrite !fmap_cons. cbn [max_list length]. rewrite IH. by destruct qs. }
  rewrite Hw. by destruct ps.
Qed.

(** Line 46 on a non-empty list of pairs: one row each, two columns. *)
Lemma DataFrame_new_pairs ps :
  ps ≠ [] →
  DataFrame_new (JArr (pair_row <$> ps)) ["timestamp"; "price"] =
    Ok {| index := RangeIndex (length ps);
          columns := [("timestamp", Values ((λ e, JInt e.1) <$> ps));
                      ("price", Values ((λ e, JFloat e.2) <$> ps))] |}.
Proof.
  intros Hne. unfold DataFrame_new.
  destruct (pair_row <$> ps) as [|r rs] eqn:E; [by destruct ps|].
  rewrite <- E. rewrite rows_of_pairs, (width_of_pairs _ Hne).
  cbn [length Nat.eqb imap]. unfold compose.
  rewrite !length_fmap, <- !list_fmap_compose. done.
Qed.

(** Line 47, right-hand side: the second component of every entry. *)
Lemma volume_of_pairs vs :
  omap (λ vol, getitem_nat vol 1) (pair_row <$> vs) = Ok ((λ e, JFloat e.2) <$> vs).
Proof.
  induction vs as [|e vs IH]; [done|].
  rewrite !fmap_cons. cbn [omap]. rewrite IH. done.
Qed.

Lemma floats_scalar vs : forallb is_scalar ((λ e, JFloat e.2) <$> vs) = true.
Proof. induction vs; [done|]. by rewrite fmap_cons. Qed.

Lemma ints_not_null ps :
  ps ≠ [] → forallb is_null ((λ e, JInt e.1) <$> ps) = false.
Proof. by destruct ps. Qed.

Lemma ints_as_int ps : mapM as_int ((λ e, JInt e.1) <$> ps) = Some (ps.*1).
Proof.
  induction ps as [|e ps IH]; [done|].
  rewrite !fmap_cons. cbn [mapM]. rewrite IH. done.
Qed.

Lemma in_bounds_int64 ms : in_bounds ms = true → in_int64 ms = true.
Proof. unfold in_bounds, in_int64, ms_to_ns, int64_max. lia. Qed.

Lemma forallb_fst (P : Z → bool) ps :
  Forall (λ e, P e.1 = true) ps → forallb P (ps.*1) = true.
Proof. induction 1 as [|e ps He _ IH]; [done|]. rewrite fmap_cons. simpl. by rewrite He. Qed.

(** Line 48 on a column of epoch milliseconds inside the range of
    [datetime64[ns]]. *)
Lemma to_datetime_ms_ints ps :
  ps ≠ [] → Forall (λ e, in_bounds e.1 = true) ps →
  to_datetime_ms (Values ((λ e, JInt e.1) <$> ps)) =
    Ok (Datetimes ((λ e, Timestamp (ms_to_ns e.1)) <$> ps)).
Proof.
  intros Hne Hb. unfold to_datetime_ms.
  rewrite (ints_not_null _ Hne), ints_as_int.
  rewrite (forallb_fst in_int64), (forallb_fst in_bounds); [|done|].
  - simpl. by rewrite <- list_fmap_compose.
  - eapply Forall_impl; [exact Hb|]. intros e. apply in_bounds_int64.
Qed.

(** The table [process_data] builds from aligned pairs. *)
Lemma process_data_pairs fields ps vs :
  dict_get "prices" fields = Some (JArr (pair_row <$> ps)) →
  dict_get "total_volumes" fields = Some (JArr (pair_row <$> vs)) →
  ps ≠ [] → length ps = length vs →
  Forall (λ e, in_bounds e.1 = true) ps →
  process_data (JObj fields) =
    Ok {| index := DatetimeIndex ((λ e, Timestamp (ms_to_ns e.1)) <$> ps);
          columns := [("timestamp", Values ((λ e, JInt e.1) <$> ps));
                      ("price", Values ((λ e, JFloat e.2) <$> ps));
                      ("volume", Values ((λ e, JFloat e.2) <$> vs))] |}.
Proof.
  intros Hp Hv Hne Hlen Hb. unfold process_data.
  rewrite (truthy_has_key _ _ _ Hp). cbn [negb].
  rewrite (dict_getitem_Some _ _ _ Hp), (dict_getitem_Some _ _ _ Hv), !bind_Ok.
  rewrite (DataFrame_new_pairs _ Hne), !bind_Ok. cbn [iter].
  rewrite bind_Ok, volume_of_pairs, bind_Ok.
  unfold setitem. rewrite floats_scalar. cbn [negb len index Index_len].
  destruct ps as [|p ps]; [done|]. destruct vs as [|v vs]; [done|].
  cbn [length Nat.eqb andb is_nil negb fmap list_fmap].
  rewrite !length_fmap. simpl in Hlen.
  replace (length vs =? length ps) with true by (symmetry; apply Nat.eqb_eq; lia).
  cbn [negb]. rewrite bind_Ok.
  cbn [columns dict_set String.eqb Ascii.eqb Bool.eqb getitem dict_getitem dict_get].
  rewrite bind_Ok.
  change (Values (JInt p.1 :: ((λ e, JInt e.1) <$> ps)))
    with (Values ((λ e, JInt e.1) <$> p :: ps)).
  rewrite to_datetime_ms_ints by done. done.
Qed.
End transformer.

(** C1, as stated, fails: [prices] and [total_volumes] are truthy,
    index-aligned and of length 1, the first component is a whole number of
    epoch milliseconds (a date in the year 318857), and [process_data]
    returns no table: 10^16 ms are 10^22 ns, more than [datetime64[ns]]
    holds, and line 48 raises OutOfBoundsDatetime. *)
Lemma process_data_far_future_raises :
  truthy far_future = true ∧
  getitem_str far_future "prices"
    = Ok (JArr [JArr [JInt 10000000000000000; JFloat 100]]) ∧
  getitem_str far_future "total_volumes"
    = Ok (JArr [JArr [JInt 10000000000000000; JFloat 5]]) ∧
  process_data far_future = Raise OutOfBoundsDatetime ∧
  ¬ ∃ df, process_data far_future = Ok df.
Proof. repeat split. intros [df Hdf]. vm_compute in Hdf. discriminate. Qed.

(** C1 (amended): a payload whose [prices] and [total_volumes] are
    non-empty lists of [integer epoch milliseconds, float] pairs of one
    length N, every timestamp being at most 2^63 - 1 nanoseconds away from
    the epoch, is turned into a table of exactly N rows in input order; row
    i is keyed by the timestamp [prices[i][0]] * 1000000 nanoseconds and
    carries [prices[i][1]] as price and [total_volumes[i][1]] as volume. *)
Theorem process_data_aligned_rows
  (fields : list (string * json)) (ps vs : list (Z * float)) :
  dict_get "prices" fields = Some (JArr ((λ e, JArr [JInt e.1; JFloat e.2]) <$> ps)) →
  dict_get "total_volumes" fields
    = Some (JArr ((λ e, JArr [JInt e.1; JFloat e.2]) <$> vs)) →
  ps ≠ [] → length ps = length vs →
  Forall (λ e, (- (2 ^ 63 - 1) ≤ e.1 * 1000000 ≤ 2 ^ 63 - 1)%Z) ps →
  ∃ df, process_data (JObj fields) = Ok df ∧
        len df = length ps ∧
        ∀ i t p t' v, ps !! i = Some (t, p) → vs !! i = Some (t', v) →
          row df i = Some (Timestamp (t * 1000000), JFloat p, JFloat v).
Proof.
  intros Hp Hv Hne Hlen Hb.
  assert (Forall (λ e : Z * float, in_bounds e.1 = true) ps) as Hb'.
  { eapply Forall_impl; [exact Hb|]. intros e He. simpl in He.
    unfold in_bounds, in_int64, ms_to_ns, int64_max.
    apply andb_true_intro. split; apply Z.leb_le; lia. }
  eexists. split; [by apply process_data_pairs|].
  split; [unfold len; simpl; by rewrite length_fmap|].
  intros i t p t' v Hi Hi'. unfold row. simpl.
  rewrite !list_lookup_fmap, Hi, Hi'. done.
Qed.

Lemma process_data_aligned_rows_witness :
  ∃ df, process_data (JObj two_rows) = Ok df ∧
        len df = 2 ∧
        ∀ i t p t' v,
          two_prices !! i = Some (t, p) → two_volumes !! i = Some (t', v) →
          row df i = Some (Timestamp (t * 1000000), JFloat p, JFloat v).
Proof.
  apply (process_data_aligned_rows two_rows two_prices two_volumes).
  - reflexivity.
  - reflexivity.
  - discriminate.
  - reflexivity.
  - repeat constructor; simpl; lia.
Defined.

(** C6: an absent ([None]) or empty payload gives the table without rows,
    and no exception. *)
Theorem process_data_absent_or_empty (raw_data : json) :
  truthy raw_data = false →
  process_data raw_data = Ok DataFrame0 ∧ len DataFrame0 = 0 ∧ empty DataFrame0 = true.
Proof. intros H. unfold process_data. rewrite H. done. Qed.

Lemma process_data_absent_or_empty_witness :
  (process_data JNull = Ok DataFrame0 ∧ len DataFrame0 = 0 ∧ empty DataFrame0 = true) ∧
  (process_data (JObj []) = Ok DataFrame0 ∧ len DataFrame0 = 0 ∧ empty DataFrame0 = true).
Proof.
  split.
  - apply (process_data_absent_or_empty JNull). reflexivity.
  - apply (process_data_absent_or_empty (JObj [])). reflexivity.
Defined.

(** C10, as stated, fails: the payload is truthy, its [prices] has length 0
    and its [total_volumes] length 1, and [process_data] returns a table;
    the frame without rows took its index from the volume list, and the
    row's timestamp and price are missing cells. *)
Lemma process_data_pads_empty_prices :
  truthy no_prices_one_volume = true ∧
  getitem_str no_prices_one_volume "prices" = Ok (JArr []) ∧
  getitem_str no_prices_one_volume "total_volumes"
    = Ok (JArr [pair_row (1700000000000%Z, 5%float)]) ∧
  process_data no_prices_one_volume =
    Ok {| index := DatetimeIndex [NaT];
          columns := [("timestamp", Values [missing]); ("price", Values [missing]);
                      ("volume", Values [JFloat 5])] |} ∧
  ¬ ∃ e, process_data no_prices_one_volume = Raise e.
Proof. repeat split. intros [e He]. vm_compute in He. discriminate. Qed.

(** C10 (amended): when [prices] is a non-empty list of pairs and
    [total_volumes] a list of pairs of another length, the frame is built
    from [prices] and the assignment of the volume column raises
    ValueError, which is what [process_data] raises. *)
Theorem process_data_length_mismatch
  (fields : list (string * json)) (ps vs : list (Z * float)) :
  dict_get "prices" fields = Some (JArr (pair_row <$> ps)) →
  dict_get "total_volumes" fields = Some (JArr (pair_row <$> vs)) →
  ps ≠ [] → length ps ≠ length vs →
  ∃ df, DataFrame_new (JArr (pair_row <$> ps)) ["timestamp"; "price"] = Ok df ∧
        setitem df "volume" ((λ e, JFloat e.2) <$> vs) = Raise ValueError ∧
        process_data (JObj fields) = Raise ValueError.
Proof.
  intros Hp Hv Hne Hlen. eexists. split; [by apply DataFrame_new_pairs|].
  assert (setitem {| index := RangeIndex (length ps);
                     columns := [("timestamp", Values ((λ e, JInt e.1) <$> ps));
                                 ("price", Values ((λ e, JFloat e.2) <$> ps))] |}
            "volume" ((λ e, JFloat e.2) <$> vs) = Raise ValueError) as Hset.
  { unfold setitem, len. rewrite floats_scalar. simpl. rewrite length_fmap.
    destruct ps as [|p ps]; [done|]. cbn [length Nat.eqb andb].
    destruct (length vs =? S (length ps)) eqn:E; [|done].
    apply Nat.eqb_eq in E. simpl in Hlen. lia. }
  split; [done|].
  unfold process_data. rewrite (truthy_has_key _ _ _ Hp). cbn [negb].
  rewrite (dict_getitem_Some _ _ _ Hp), (dict_getitem_Some _ _ _ Hv), !bind_Ok.
  rewrite (DataFrame_new_pairs _ Hne), !bind_Ok. cbn [iter].
  by rewrite bind_Ok, volume_of_pairs, bind_Ok, Hset.
Qed.

Lemma process_data_length_mismatch_witness :
  ∃ df, DataFrame_new (JArr (pair_row <$> [(1700000000000%Z, 100%float)]))
          ["timestamp"; "price"] = Ok df ∧
        setitem df "volume" ((λ e, JFloat e.2) <$> two_volumes) = Raise ValueError ∧
        process_data (JObj [("prices", JArr (pair_row <$> [(1700000000000%Z, 100%float)]));
                            ("total_volumes", JArr (pair_row <$> two_volumes))])
          = Raise ValueError.
Proof.
  apply (process_data_length_mismatch
           [("prices", JArr (pair_row <$> [(1700000000000%Z, 100%float)]));
            ("total_volumes", JArr (pair_row <$> two_volumes))]
           [(1700000000000%Z, 100%float)] two_volumes).
  - reflexivity.
  - reflexivity.
  - discriminate.
  - simpl. lia.
Defined.

(** ** The presenter's metrics *)

Section metrics.
Context {A : Type}.
Implicit Types (xs : list A) (x y : A).

Lemma positional_last xs x : positional (xs ++ [x]) (-1) = Ok x.
Proof.
  unfold positional. rewrite length_app. simpl.
  replace (-1 + Z.of_nat (length xs + 1))%Z with (Z.of_nat (length xs)) by lia.
  rewrite Nat2Z.id, list_lookup_middle by done.
  rewrite (proj2 (Z.leb_le _ _)), (proj2 (Z.ltb_lt _ _)) by lia. done.
Qed.

Lemma positional_before_last xs y x : positional (xs ++ [y; x]) (-2) = Ok y.
Proof.
  unfold positional. rewrite length_app. simpl.
  replace (-2 + Z.of_nat (length xs + 2))%Z with (Z.of_nat (length xs)) by lia.
  rewrite Nat2Z.id, list_lookup_middle by done.
  rewrite (proj2 (Z.leb_le _ _)), (proj2 (Z.ltb_lt _ _)) by lia. done.
Qed.

Lemma positional_last_of_two xs y x : positional (xs ++ [y; x]) (-1) = Ok x.
Proof.
  change (xs ++ [y; x]) with (xs ++ [y] ++ [x]).
  rewrite app_assoc. apply positional_last.
Qed.

(** Two rows or more: the list ends in a previous and a latest item. *)
Lemma last_two xs :
  2 ≤ length xs →
  ∃ front y x, xs = front ++ [y; x] ∧
               xs !! (length xs - 2) = Some y ∧ xs !! (length xs - 1) = Some x.
Proof.
  intros Hn.
  destruct (rev xs) as [|x [|y tl]] eqn:E;
    apply (f_equal (@rev A)) in E; rewrite rev_involutive in E; subst xs;
    simpl in Hn; try lia.
  exists (rev tl), y, x. simpl. rewrite <- app_assoc. simpl.
  split; [done|]. rewrite length_app. simpl. split.
  - replace (length (rev tl) + 2 - 2) with (length (rev tl)) by lia.
    by apply list_lookup_middle.
  - replace (length (rev tl) + 2 - 1) with (length (rev tl ++ [y])).
    + change (rev tl ++ [y; x]) with (rev tl ++ [y] ++ [x]).
      rewrite app_assoc. by apply list_lookup_middle.
    + rewrite length_app. simpl. lia.
Qed.
End metrics.

Lemma float64_floats (fs : list float) :
  fs ≠ [] → float64 (Values (JFloat <$> fs)) = true.
Proof.
  intros Hne. unfold float64.
  assert (forallb is_float (JFloat <$> fs) = true) as ->.
  { clear Hne. induction fs as [|g fs IH]; [done|]. by rewrite fmap_cons. }
  by destruct fs.
Qed.

(** Lines 93-96 on a date-indexed table whose float64 price column ends in
    [prev; latest]. *)
Lemma key_metrics_ends ts cols (front : list float) (prev latest : float) :
  dict_get "price" cols = Some (Values (JFloat <$> front ++ [prev; latest])) →
  key_metrics {| index := DatetimeIndex ts; columns := cols |} =
    Ok {| latest_price := latest;
          prev_price := prev;
          price_change := latest - prev;
          price_change_pct := ((latest - prev) / prev) * 100 |}%float.
Proof.
  intros Hp. unfold key_metrics, getitem, dict_getitem. cbn [columns index].
  rewrite Hp, bind_Ok. cbn [Series_getitem].
  rewrite fmap_app. cbn [fmap list_fmap].
  rewrite positional_last_of_two, bind_Ok, positional_before_last, bind_Ok.
  assert (float64 (Values ((JFloat <$> front) ++ [JFloat prev; JFloat latest])) = true) as Hf.
  { change [JFloat prev; JFloat latest] with (JFloat <$> [prev; latest]).
    rewrite <- fmap_app. apply float64_floats. by destruct front. }
  unfold np_float64. cbn [as_float]. rewrite Hf, !bind_Ok. done.
Qed.

(** C7: on a table of two or more rows (date-indexed, float64 prices) the
    latest price is the last row's price, the previous price the
    second-to-last row's, the absolute change their difference and the
    percentage change that difference divided by the previous price, times
    100, all in binary64; and the table priced [100, 110] gives 110, 100,
    10 and 10.0. *)
Theorem key_metrics_two_or_more :
  (∀ (df : DataFrame) ts (prices : list float),
     index df = DatetimeIndex ts →
     getitem df "price" = Ok (Values (JFloat <$> prices)) →
     2 ≤ length prices →
     ∃ latest prev,
       prices !! (length prices - 1) = Some latest ∧
       prices !! (length prices - 2) = Some prev ∧
       key_metrics df =
         Ok {| latest_price := latest;
               prev_price := prev;
               price_change := latest - prev;
               price_change_pct := ((latest - prev) / prev) * 100 |}%float) ∧
  (df ← process_data (JObj two_rows); key_metrics df) =
    Ok {| latest_price := 110; prev_price := 100;
          price_change := 10; price_change_pct := 10 |}%float.
Proof.
  split; [|vm_compute; reflexivity].
  intros [idx cols] ts prices Hidx Hp Hn. cbn [index] in Hidx. subst idx.
  destruct (last_two prices Hn) as (front & prev & latest & -> & Hy & Hx).
  exists latest, prev. split; [done|]. split; [done|].
  apply (key_metrics_ends _ _ front).
  unfold getitem, dict_getitem in Hp. cbn [columns] in Hp.
  destruct (dict_get "price" cols); by inversion Hp.
Qed.

Lemma key_metrics_two_or_more_witness :
  ∃ latest prev,
    [100; 110]%float !! (length [100; 110]%float - 1) = Some latest ∧
    [100; 110]%float !! (length [100; 110]%float - 2) = Some prev ∧
    key_metrics {| index := DatetimeIndex [NaT; NaT];
                   columns := [("price", Values (JFloat <$> [100; 110]%float))] |} =
      Ok {| latest_price := latest;
            prev_price := prev;
            price_change := latest - prev;
            price_change_pct := ((latest - prev) / prev) * 100 |}%float.
Proof.
  apply (proj1 key_metrics_two_or_more
           {| index := DatetimeIndex [NaT; NaT];
              columns := [("price", Values (JFloat <$> [100; 110]%float))] |}
           [NaT; NaT] [100; 110]%float).
  - reflexivity.
  - reflexivity.
  - simpl. lia.
Defined.

(** C2 (the code departs from it): a table of one row is not empty, so the
    [if not df.empty] guard lets it through, and the lookup
    [df['price'][-2]] is performed on it and raises IndexError.  The first
    part is any one-row table, the second the whole run on [one_row]. *)
Theorem presenter_one_row_raises :
  (∀ name t stamp p v w,
     (presenter name
        {| index := DatetimeIndex [t];
           columns := [("timestamp", Values [stamp]); ("price", Values [p]);
                       ("volume", Values [v])] |} w).1 = Raise IndexError) ∧
  (∃ df, process_data one_row = Ok df ∧ len df = 1 ∧ empty df = false ∧
         key_metrics df = Raise IndexError) ∧
  (rerun (answers 200 one_row) 0%Z 0%Z "BTC" cold).1 = Raise IndexError.
Proof.
  split; [|split].
  - intros. reflexivity.
  - eexists. split; [vm_compute; reflexivity|]. by vm_compute.
  - vm_compute. reflexivity.
Qed.

(** ** The fetcher and its memo *)

Lemma fetch_body_run net now coin_id days w :
  fetch_crypto_data_body net now coin_id days w =
    (Ok (fetched (net now (market_chart_url coin_id days))),
     {| memo := memo w;
        page := page w ++ notices coin_id (net now (market_chart_url coin_id days));
        sent := sent w ++ [(now, market_chart_url coin_id days)] |}).
Proof.
  unfold fetch_crypto_data_body, fetched, notices, mbind, M_bind, st.bind, draw,
    requests_get, mret, M_ret, st.ret.
  cbn [memo page sent].
  destruct (response_data _) as [e|data]; cbn [memo page sent];
    by rewrite <- ?app_assoc.
Qed.

(** A call that finds no fresh entry runs the body, sends one request and
    stores what the body returned. *)
Lemma fetch_miss net now coin_id days w :
  fresh w now coin_id days = false →
  fetch_crypto_data net now coin_id days w =
    let got := net now (market_chart_url coin_id days) in
    (Ok (fetched got),
     {| memo := <[(coin_id, days) :=
                   {| stored_at := now; value := fetched got;
                      replay := notices coin_id got |}]> (memo w);
        page := page w ++ notices coin_id got;
        sent := sent w ++ [(now, market_chart_url coin_id days)] |}).
Proof.
  intros Hf. unfold fetch_crypto_data, cache_data, fresh in *.
  rewrite fetch_body_run. cbn [memo page sent].
  rewrite drop_app_length.
  destruct (memo w !! (coin_id, days)) as [e|]; [|done]. by rewrite Hf.
Qed.

(** A call that finds a fresh entry returns it and sends nothing. *)
Lemma fetch_hit net now coin_id days w e :
  memo w !! (coin_id, days) = Some e →
  (now < stored_at e + ttl * 1000)%Z →
  fetch_crypto_data net now coin_id days w =
    (Ok (value e),
     {| memo := memo w; page := page w ++ replay e; sent := sent w |}).
Proof.
  intros He Ht. unfold fetch_crypto_data, cache_data. rewrite He.
  by rewrite (proj2 (Z.ltb_lt _ _)).
Qed.

Lemma fetch_at_cons net coin_id days t times w v w1 vs w2 :
  fetch_crypto_data net t coin_id days w = (Ok v, w1) →
  fetch_at net coin_id days times w1 = (Ok vs, w2) →
  fetch_at net coin_id days (t :: times) w = (Ok (v :: vs), w2).
Proof.
  intros H1 H2. cbn [fetch_at]. unfold mbind, M_bind, st.bind.
  by rewrite H1, H2.
Qed.

(** While the stored entry is fresh, every call returns it; nothing is
    sent and the memo stays as it is. *)
Lemma fetch_at_all_hits net coin_id days times w e :
  memo w !! (coin_id, days) = Some e →
  Forall (λ t, (t < stored_at e + ttl * 1000)%Z) times →
  ∃ w', fetch_at net coin_id days times w = (Ok (replicate (length times) (value e)), w') ∧
        memo w' = memo w ∧ sent w' = sent w.
Proof.
  intros He Hts. revert w He.
  induction Hts as [|t times Ht _ IH]; intros w He.
  - by exists w.
  - destruct (IH {| memo := memo w; page := page w ++ replay e; sent := sent w |} He)
      as (w' & Hrun & Hm & Hs).
    exists w'. split; [|done].
    eapply fetch_at_cons; [by apply fetch_hit|exact Hrun].
Qed.

(** Calls that all fall in one window of the time-to-live send at most one
    request, whatever the memo held before. *)
Lemma fetch_at_window net coin_id days t0 times w :
  Forall (λ t, (t0 ≤ t < t0 + ttl * 1000)%Z) times →
  ∃ vs w', fetch_at net coin_id days times w = (Ok vs, w') ∧
           length vs = length times ∧
           length (sent w') ≤ length (sent w) + 1.
Proof.
  intros Hts. revert w. induction Hts as [|t times Ht Hrest IH]; intros w.
  - exists [], w. split; [done|]. split; [done|lia].
  - destruct (fresh w t coin_id days) eqn:Hf.
    + unfold fresh in Hf. destruct (memo w !! (coin_id, days)) as [e|] eqn:He; [|done].
      apply Z.ltb_lt in Hf.
      destruct (IH {| memo := memo w; page := page w ++ replay e; sent := sent w |})
        as (vs & w' & Hrun & Hlen & Hs).
      exists (value e :: vs), w'. split; [|split; [simpl; lia|done]].
      eapply fetch_at_cons; [by apply fetch_hit|exact Hrun].
    + pose proof (fetch_miss net t coin_id days w Hf) as Hmiss. cbv zeta in Hmiss.
      set (got := net t (market_chart_url coin_id days)) in *.
      set (e := {| stored_at := t; value := fetched got; replay := notices coin_id got |}) in *.
      set (w1 := {| memo := <[(coin_id, days) := e]> (memo w);
                    page := page w ++ notices coin_id got;
                    sent := sent w ++ [(t, market_chart_url coin_id days)] |}) in *.
      destruct (fetch_at_all_hits net coin_id days times w1 e) as (w' & Hrun & _ & Hs).
      { apply lookup_insert_eq. }
      { eapply Forall_impl; [exact Hrest|]. simpl. intros t'. lia. }
      exists (value e :: replicate (length times) (value e)), w'.
      split; [by eapply fetch_at_cons|].
      split; [simpl; by rewrite length_replicate|].
      rewrite Hs. unfold w1. cbn [sent]. rewrite length_app. simpl. lia.
Qed.

(** C5: calls with the same arguments at a time [t0] and at later times
    inside the 600 seconds that follow send at most one request between
    them; and when the call at [t0] is the one that went to the network,
    that request is the only one and every call returns the payload it
    stored. *)
Theorem fetch_within_ttl net coin_id days (t0 : Z) (later : list Z) w :
  Forall (λ t, (t0 ≤ t < t0 + 600 * 1000)%Z) later →
  ∃ vs w',
    fetch_at net coin_id days (t0 :: later) w = (Ok vs, w') ∧
    length vs = S (length later) ∧
    length (sent w') ≤ length (sent w) + 1 ∧
    (fresh w t0 coin_id days = false →
       sent w' = sent w ++ [(t0, market_chart_url coin_id days)] ∧
       vs = replicate (S (length later))
              (fetched (net t0 (market_chart_url coin_id days)))).
Proof.
  intros Hlater.
  destruct (fetch_at_window net coin_id days t0 (t0 :: later) w)
    as (vs & w' & Hrun & Hlen & Hsent).
  { constructor; [unfold ttl; lia|exact Hlater]. }
  exists vs, w'. split; [exact Hrun|]. split; [exact Hlen|]. split; [exact Hsent|].
  intros Hf.
  pose proof (fetch_miss net t0 coin_id days w Hf) as Hmiss. cbv zeta in Hmiss.
  set (got := net t0 (market_chart_url coin_id days)) in *.
  set (e := {| stored_at := t0; value := fetched got; replay := notices coin_id got |}) in *.
  set (w1 := {| memo := <[(coin_id, days) := e]> (memo w);
                page := page w ++ notices coin_id got;
                sent := sent w ++ [(t0, market_chart_url coin_id days)] |}) in *.
  destruct (fetch_at_all_hits net coin_id days later w1 e) as (w2 & Hrest & _ & Hs).
  { apply lookup_insert_eq. }
  { eapply Forall_impl; [exact Hlater|]. simpl. unfold ttl. intros t'. lia. }
  rewrite (fetch_at_cons _ _ _ _ _ _ _ _ _ _ Hmiss Hrest) in Hrun.
  inversion Hrun; subst vs w'. by rewrite Hs.
Qed.

Lemma fetch_within_ttl_witness :
  ∃ vs w',
    fetch_at (answers 200 (JObj two_rows)) "bitcoin" 60%Z [0; 15000; 30000; 599999]%Z cold
      = (Ok vs, w') ∧
    length vs = 4 ∧
    length (sent w') ≤ length (sent cold) + 1 ∧
    (fresh cold 0%Z "bitcoin" 60%Z = false →
       sent w' = sent cold ++ [(0%Z, market_chart_url "bitcoin" 60%Z)] ∧
       vs = replicate 4
              (fetched (answers 200 (JObj two_rows) 0%Z (market_chart_url "bitcoin" 60%Z)))).
Proof.
  apply (fetch_within_ttl (answers 200 (JObj two_rows)) "bitcoin" 60%Z 0%Z
           [15000; 30000; 599999]%Z cold).
  repeat constructor; lia.
Defined.

(** C3, as stated, fails: with the network down, a first run at time 0
    sends one request, fails and shows the error banner; the rerun of the
    next timer tick, 15 seconds later, sends no request: the [None] the
    failed call returned is served from the memo, error notice included. *)
Lemma failed_fetch_not_retried_on_next_tick :
  let first := rerun down 0%Z 0%Z "BTC" cold in
  let next := rerun down (0 + interval)%Z 1%Z "BTC" first.2 in
  first.1 = Ok () ∧
  sent first.2 = [(0%Z, market_chart_url "bitcoin" DAYS)] ∧
  error "Failed to fetch data from the API. Please try again later." ∈ page first.2 ∧
  next.1 = Ok () ∧
  sent next.2 = sent first.2 ∧
  error "Failed to fetch data from the API. Please try again later." ∈ page next.2.
Proof.
  vm_compute. repeat split; apply list_elem_of_In; vm_compute; tauto.
Qed.

(** C3 (amended): a call that goes to the network and fails returns [None]
    and stores it.  Any call with the same arguments before 600 seconds
    have passed (the next timer tick is such a call) gets that [None] back
    and sends nothing; the first call at or after 600 seconds sends a new
    request. *)
Theorem failed_fetch_is_memoised net coin_id days (t0 : Z) w e :
  fresh w t0 coin_id days = false →
  response_data (net t0 (market_chart_url coin_id days)) = inl e →
  ∃ w0,
    fetch_crypto_data net t0 coin_id days w = (Ok JNull, w0) ∧
    sent w0 = sent w ++ [(t0, market_chart_url coin_id days)] ∧
    (∀ net' t w1, memo w1 = memo w0 → (t < t0 + 600 * 1000)%Z →
       ∃ w2, fetch_crypto_data net' t coin_id days w1 = (Ok JNull, w2) ∧
             sent w2 = sent w1) ∧
    (∀ net' w1, memo w1 = memo w0 →
       ∃ w2, fetch_crypto_data net' (t0 + interval) coin_id days w1 = (Ok JNull, w2) ∧
             sent w2 = sent w1) ∧
    (∀ net' t w1, memo w1 = memo w0 → (t0 + 600 * 1000 ≤ t)%Z →
       ∃ v w2, fetch_crypto_data net' t coin_id days w1 = (Ok v, w2) ∧
               sent w2 = sent w1 ++ [(t, market_chart_url coin_id days)]).
Proof.
  intros Hf He.
  pose proof (fetch_miss net t0 coin_id days w Hf) as Hmiss. cbv zeta in Hmiss.
  unfold fetched in Hmiss. rewrite He in Hmiss.
  eexists. split; [exact Hmiss|]. split; [done|]. cbn [memo].
  assert (∀ net' t w1,
    memo w1 = <[(coin_id, days) :=
                 {| stored_at := t0; value := JNull;
                    replay := notices coin_id (net t0 (market_chart_url coin_id days)) |}]>
                (memo w) →
    (t < t0 + 600 * 1000)%Z →
    ∃ w2, fetch_crypto_data net' t coin_id days w1 = (Ok JNull, w2) ∧ sent w2 = sent w1)
    as Hhit.
  { intros net' t w1 Hm Ht.
    erewrite (fetch_hit net' t coin_id days w1);
      [|rewrite Hm; apply lookup_insert_eq|cbn [stored_at]; unfold ttl; lia].
    cbn [value]. by eexists. }
  split; [exact Hhit|]. split.
  - intros net' w1 Hm. apply Hhit; [done|]. unfold interval. lia.
  - intros net' t w1 Hm Ht. eexists _, _. split.
    + apply fetch_miss. unfold fresh. rewrite Hm, lookup_insert_eq. cbn [stored_at].
      apply Z.ltb_ge. unfold ttl. lia.
    + done.
Qed.

Lemma failed_fetch_is_memoised_witness :
  ∃ w0,
    fetch_crypto_data down 0%Z "bitcoin" 60%Z cold = (Ok JNull, w0) ∧
    sent w0 = sent cold ++ [(0%Z, market_chart_url "bitcoin" 60%Z)] ∧
    (∀ net' t w1, memo w1 = memo w0 → (t < 0 + 600 * 1000)%Z →
       ∃ w2, fetch_crypto_data net' t "bitcoin" 60%Z w1 = (Ok JNull, w2) ∧
             sent w2 = sent w1) ∧
    (∀ net' w1, memo w1 = memo w0 →
       ∃ w2, fetch_crypto_data net' (0 + interval)%Z "bitcoin" 60%Z w1 = (Ok JNull, w2) ∧
             sent w2 = sent w1) ∧
    (∀ net' t w1, memo w1 = memo w0 → (0 + 600 * 1000 ≤ t)%Z →
       ∃ v w2, fetch_crypto_data net' t "bitcoin" 60%Z w1 = (Ok v, w2) ∧
               sent w2 = sent w1 ++ [(t, market_chart_url "bitcoin" 60%Z)]).
Proof.
  apply (failed_fetch_is_memoised down "bitcoin" 60%Z 0%Z cold
           (requests.ConnectionError "Max retries exceeded")).
  - reflexivity.
  - reflexivity.
Defined.

(** ** One run of the script *)

(** The run, once the selection is resolved and the fetch has gone to the
    network: the branch on the payload, then the footer. *)
Lemma rerun_miss net now count name id w :
  dict_get name COIN_MAP = Some id →
  fresh w now id DAYS = false →
  rerun net now count name w =
    finish now count
      (if truthy (fetched (net now (market_chart_url id DAYS))) then
         (df ← lift (process_data (fetched (net now (market_chart_url id DAYS))));
          presenter name df) (fetched_world net now id w)
       else draw fetch_failed_banner (fetched_world net now id w)).
Proof.
  intros Hid Hf. unfold rerun, script, mbind, M_bind, st.bind.
  cbn [draw lift fresh_page memo page sent app].
  unfold dict_getitem. rewrite Hid.
  rewrite fetch_miss by exact Hf. cbv zeta. cbn [memo page sent app].
  unfold finish, fetched_world, header. cbn [app].
  destruct (truthy _).
  - destruct (process_data _) as [df| |]; try reflexivity.
    destruct (presenter name df _) as [[[]| |] w2]; try reflexivity.
    unfold draw, trailer. cbn [memo page sent]. by rewrite <- !app_assoc.
  - unfold draw, trailer. cbn [memo page sent]. by rewrite <- !app_assoc.
Qed.

Lemma quiet_ret {A} (a : A) : quiet (mret a).
Proof. by intros w. Qed.

Lemma quiet_lift {A} (o : outcome A) : quiet (lift o).
Proof. by intros w. Qed.

Lemma quiet_draw e : quiet (draw e).
Proof. by intros w. Qed.

Lemma quiet_bind {A B} (m : M A) (k : A → M B) :
  quiet m → (∀ a, quiet (k a)) → quiet (m ≫= k).
Proof.
  intros Hm Hk w. unfold mbind, M_bind, st.bind.
  destruct (Hm w) as [Hs Hmemo]. destruct (m w) as [[a| |] w1]; [|done|done].
  destruct (Hk a w1) as [Hs' Hmemo']. simpl in *. split; congruence.
Qed.

Create HintDb quiet.
#[local] Hint Resolve quiet_ret quiet_lift quiet_draw : quiet.
#[local] Hint Extern 2 (quiet (_ ≫= _)) => apply quiet_bind; [|intros ?] : quiet.

Lemma quiet_presenter name df : quiet (presenter name df).
Proof.
  unfold presenter, metric_tiles, charts.
  destruct (negb (empty df)); auto 20 with quiet.
Qed.

Lemma sent_finish now count r : sent (finish now count r).2 = sent r.2.
Proof. by destruct r as [[[]| |] w]. Qed.

(** A run that goes to the network sends exactly the request for the
    identifier the selection maps to, whatever comes back. *)
Lemma rerun_sent net now count name id w :
  dict_get name COIN_MAP = Some id →
  fresh w now id DAYS = false →
  sent (rerun net now count name w).2 = sent w ++ [(now, market_chart_url id DAYS)].
Proof.
  intros Hid Hf. rewrite (rerun_miss _ _ _ _ _ _ Hid Hf), sent_finish.
  destruct (truthy _); [|done].
  assert (quiet (df ← lift (process_data (fetched (net now (market_chart_url id DAYS))));
                 presenter name df)) as Hq.
  { apply quiet_bind; [apply quiet_lift|]. intros df. apply quiet_presenter. }
  by rewrite (proj1 (Hq _)).
Qed.






(** C4 (the code departs from it): the body [{"error": "coin not found"}]
    is fetched with status 200; it is truthy and has no [prices] key.
    Line 44 returns an empty frame only for a falsy payload and the warning
    of line 176 is drawn only for an empty frame; this payload reaches
    line 46, [process_data] raises KeyError, nothing catches it, the run
    ends with that exception and the warning banner is not drawn. *)
Lemma malformed_payload_raises :
  let run := rerun (answers 200 error_body) 0%Z 0%Z "BTC" cold in
  (fetch_crypto_data (answers 200 error_body) 0%Z "bitcoin" DAYS cold).1 = Ok error_body ∧
  truthy error_body = true ∧
  process_data error_body = Raise (KeyError "prices") ∧
  run.1 = Raise (KeyError "prices") ∧
  List.existsb (λ e, match e with warning _ => true | _ => false end) (page run.2) = false.
Proof. vm_compute. tauto. Qed.

(** ** The coin selector *)

Section dict_facts.
Context {V : Type}.
Implicit Types (d items : list (string * V)) (k : string) (v : V).

Lemma dict_get_set_eq k v d : dict_get k (dict_set k v d) = Some v.
Proof.
  induction d as [|[k' v'] d IH]; simpl.
  - by rewrite String.eqb_refl.
  - destruct (String.eqb k k') eqn:E; simpl; rewrite E; [done|exact IH].
Qed.

Lemma dict_get_set_ne k k' v d : k ≠ k' → dict_get k' (dict_set k v d) = dict_get k' d.
Proof.
  intros Hne. induction d as [|[k0 v0] d IH]; simpl.
  - destruct (String.eqb k' k) eqn:E; [|done].
    apply String.eqb_eq in E. congruence.
  - destruct (String.eqb k k0) eqn:E; simpl.
    + apply String.eqb_eq in E. subst k0.
      destruct (String.eqb k' k) eqn:E'; [|done].
      apply String.eqb_eq in E'. congruence.
    + by rewrite IH.
Qed.

Lemma dict_get_later_items k d items :
  k ∉ items.*1 →
  dict_get k (foldl (λ d kv, dict_set kv.1 kv.2 d) d items) = dict_get k d.
Proof.
  revert d. induction items as [|[k' v'] items IH]; intros d Hk; [done|].
  rewrite fmap_cons in Hk. apply not_elem_of_cons in Hk as [Hne Hk].
  simpl. rewrite IH by done. apply dict_get_set_ne. simpl in Hne. congruence.
Qed.

(** In a dict display the last item written for a key is the one kept. *)
Lemma dict_display_last_wins (pre post : list (string * V)) k v :
  k ∉ post.*1 → dict_getitem (dict_display (pre ++ (k, v) :: post)) k = Ok v.
Proof.
  intros Hk. unfold dict_getitem, dict_display.
  rewrite foldl_app. simpl. rewrite dict_get_later_items by done.
  by rewrite dict_get_set_eq.
Qed.
End dict_facts.

Lemma market_chart_url_60 id :
  market_chart_url id DAYS =
    "https://api.coingecko.com/api/v3/coins/" +:+ id
      +:+ "/market_chart?vs_currency=usd&days=60".
Proof. reflexivity. Qed.

(** C9: the label "ETH" maps to "ethereum" and "XRP" to "ripple"; "XRP" is
    written twice in the display and is one key of the map, holding the
    item written last (as any display does); and a run that goes to the
    network sends one request, to the URL that has the identifier the
    selected label maps to between [/coins/] and [/market_chart]: for
    "ETH" the ethereum URL, for "XRP" the ripple URL. *)
Theorem selection_reaches_fetch :
  dict_getitem COIN_MAP "ETH" = Ok "ethereum" ∧
  dict_getitem COIN_MAP "XRP" = Ok "ripple" ∧
  dict_keys COIN_MAP =
    ["BTC"; "ETH"; "DOGE"; "XRP"; "TETH"; "BNB"; "SOL"; "USDC"; "STETH"; "TRON";
     "CARD"; "WSTE"; "CHAI"; "PI"] ∧
  (∀ (pre post : list (string * string)) k v,
     k ∉ post.*1 → dict_getitem (dict_display (pre ++ (k, v) :: post)) k = Ok v) ∧
  (∀ net now count name id w,
     dict_getitem COIN_MAP name = Ok id →
     fresh w now id DAYS = false →
     sent (rerun net now count name w).2 =
       sent w ++ [(now, "https://api.coingecko.com/api/v3/coins/" +:+ id
                          +:+ "/market_chart?vs_currency=usd&days=60")]) ∧
  (∀ net now count,
     sent (rerun net now count "ETH" cold).2 =
       [(now, "https://api.coingecko.com/api/v3/coins/ethereum/market_chart?vs_currency=usd&days=60")] ∧
     sent (rerun net now count "XRP" cold).2 =
       [(now, "https://api.coingecko.com/api/v3/coins/ripple/market_chart?vs_currency=usd&days=60")]).
Proof.
  assert (∀ net now count name id w,
            dict_getitem COIN_MAP name = Ok id →
            fresh w now id DAYS = false →
            sent (rerun net now count name w).2 =
              sent w ++ [(now, "https://api.coingecko.com/api/v3/coins/" +:+ id
                                 +:+ "/market_chart?vs_currency=usd&days=60")]) as Hrun.
  { intros net now count name id w Hid Hf.
    rewrite <- market_chart_url_60. apply rerun_sent; [|done].
    unfold dict_getitem in Hid. destruct (dict_get name COIN_MAP); by inversion Hid. }
  split; [reflexivity|]. split.
  { apply (dict_display_last_wins
             [("BTC", "bitcoin"); ("ETH", "ethereum"); ("DOGE", "dogecoin"); ("XRP", "ripple")]
             [("TETH", "tether"); ("BNB", "binancecoin"); ("SOL", "solana");
              ("USDC", "usd-coin"); ("STETH", "staked-ether"); ("TRON", "tron");
              ("CARD", "cardano"); ("WSTE", "wrapped-steth"); ("CHAI", "chainlink");
              ("PI", "pi-network")] "XRP" "ripple").
    intros Hin. apply list_elem_of_In in Hin. simpl in Hin.
    repeat destruct Hin as [Hin|Hin]; try discriminate Hin. done. }
  split; [reflexivity|]. split; [apply @dict_display_last_wins|].
  split; [exact Hrun|].
  intros net now count. split.
  - apply (Hrun net now count "ETH" "ethereum" cold); reflexivity.
  - apply (Hrun net now count "XRP" "ripple" cold); reflexivity.
Qed.

Lemma selection_reaches_fetch_witness :
  dict_getitem (dict_display ([("XRP", "first")] ++ ("XRP", "second") :: [("ETH", "ethereum")]))
    "XRP" = Ok "second" ∧
  sent (rerun (answers 200 (JObj two_rows)) 0%Z 0%Z "ETH" cold).2 =
    sent cold ++
    [(0%Z, "https://api.coingecko.com/api/v3/coins/" +:+ "ethereum"
             +:+ "/market_chart?vs_currency=usd&days=60")] ∧
  sent (rerun (answers 200 (JObj two_rows)) 0%Z 0%Z "XRP" cold).2 =
    sent cold ++
    [(0%Z, "https://api.coingecko.com/api/v3/coins/" +:+ "ripple"
             +:+ "/market_chart?vs_currency=usd&days=60")].
Proof.
  destruct selection_reaches_fetch as (_ & _ & _ & Hlast & Hrun & _).
  split; [|split].
  - apply (Hlast [("XRP", "first")] [("ETH", "ethereum")] "XRP" "second").
    intros Hin. apply list_elem_of_In in Hin. simpl in Hin.
    destruct Hin as [Hin|[]]. discriminate Hin.
  - apply (Hrun (answers 200 (JObj two_rows)) 0%Z 0%Z "ETH" "ethereum" cold); reflexivity.
  - apply (Hrun (answers 200 (JObj two_rows)) 0%Z 0%Z "XRP" "ripple" cold); reflexivity.
Defined.

(** ** The transformer on arbitrary payloads *)

Lemma bind_Raise {A B} e (k : A → outcome B) : Raise e ≫= k = Raise e.
Proof. done. Qed.

Lemma bind_OutOfModel {A B} (k : A → outcome B) : OutOfModel ≫= k = OutOfModel.
Proof. done. Qed.

(** Case analysis on the first statement of a sequence known to end well. *)
Tactic Notation "first_ok" hyp(H) "as" ident(x) ident(E) :=
  match type of H with
  | (?o ≫= _) = Ok _ =>
      destruct o as [x| |] eqn:E;
      [rewrite bind_Ok in H
      |rewrite bind_Raise in H; discriminate H
      |rewrite bind_OutOfModel in H; discriminate H]
  end.

(** Line 46, whenever it succeeds: two columns as long as the index, one
    row per entry of a list. *)
Lemma DataFrame_new_shape data df :
  DataFrame_new data ["timestamp"; "price"] = Ok df →
  ∃ a b,
    df = {| index := RangeIndex (length a);
            columns := [("timestamp", Values a); ("price", Values b)] |} ∧
    length b = length a ∧
    (∀ rows, data = JArr rows → length a = length rows).
Proof.
  intros H. destruct data as [|?|?|?|?|rows|?]; try discriminate H.
  - exists [], []. inversion H. split; [done|]. split; [done|]. intros ? [=].
  - destruct rows as [|r rows].
    + exists [], []. inversion H. split; [done|]. split; [done|].
      by intros ? [= <-].
    + cbn [DataFrame_new length] in H.
      destruct (mapM as_list (r :: rows)) as [rs|] eqn:E; [|discriminate H].
      destruct (max_list (length <$> rs) =? 2) eqn:Ew; [|discriminate H].
      inversion H. cbn [imap].
      exists ((λ r : list json, default missing (r !! 0)) <$> rs),
             ((λ r : list json, default missing (r !! 1)) <$> rs).
      rewrite !length_fmap. split; [reflexivity|]. split; [done|].
      intros ? [= <-]. symmetry. by eapply length_mapM.
Qed.

(** Line 47, whenever the assignment succeeds: the frame has one row per
    item of the list, and a frame that had rows keeps its cells. *)
Lemma setitem_volume_shape a b volume df :
  length b = length a →
  setitem {| index := RangeIndex (length a);
             columns := [("timestamp", Values a); ("price", Values b)] |}
    "volume" volume = Ok df →
  ∃ a' b',
    df = {| index := RangeIndex (length volume);
            columns := [("timestamp", Values a'); ("price", Values b');
                        ("volume", Values volume)] |} ∧
    length a' = length volume ∧ length b' = length volume ∧
    (a ≠ [] → a' = a ∧ b' = b).
Proof.
  intros Hb H. unfold setitem in H.
  destruct (forallb is_scalar volume); [|discriminate H].
  cbn [negb len index Index_len columns] in H.
  destruct ((length a =? 0) && negb (is_nil volume)) eqn:E.
  - inversion H. apply andb_prop in E as [Ea _]. apply Nat.eqb_eq in Ea.
    exists (replicate (length volume) missing), (replicate (length volume) missing).
    split; [reflexivity|]. rewrite !length_replicate.
    split; [done|]. split; [done|]. intros Hne. by destruct a.
  - destruct (length volume =? length a) eqn:El; [|discriminate H].
    apply Nat.eqb_eq in El. inversion H. rewrite <- El.
    exists a, b. split; [done|]. split; [done|]. split; [congruence|done].
Qed.

(** Line 48, whenever it succeeds: one date per cell. *)
Lemma to_datetime_ms_shape cells s :
  to_datetime_ms (Values cells) = Ok s →
  ∃ ts, s = Datetimes ts ∧ length ts = length cells.
Proof.
  unfold to_datetime_ms. intros H.
  destruct (forallb is_null cells).
  - inversion H. eexists. split; [done|]. by rewrite length_replicate.
  - destruct (mapM as_int cells) as [zs|] eqn:E; [|discriminate H].
    destruct (forallb in_int64 zs); [|discriminate H].
    destruct (forallb in_bounds zs); [|discriminate H].
    inversion H. eexists. split; [done|]. rewrite length_fmap.
    symmetry. by eapply length_mapM.
Qed.

Lemma omap_length {A B} (f : A → outcome B) xs ys :
  omap f xs = Ok ys → length ys = length xs.
Proof.
  revert ys. induction xs as [|x xs IH]; intros ys H.
  - by inversion H.
  - cbn [omap] in H. first_ok H as y Ey. first_ok H as ys' Eys.
    inversion H. simpl. f_equal. by apply IH.
Qed.

(** What [process_data] has done, step by step, when it turns a truthy
    payload into a table. *)
Lemma process_data_steps raw_data df :
  truthy raw_data = true →
  process_data raw_data = Ok df →
  ∃ prices total_volumes vols volume a b ts,
    getitem_str raw_data "prices" = Ok prices ∧
    getitem_str raw_data "total_volumes" = Ok total_volumes ∧
    iter total_volumes = Ok vols ∧
    omap (λ vol, getitem_nat vol 1) vols = Ok volume ∧
    df = {| index := DatetimeIndex ts;
            columns := [("timestamp", Values a); ("price", Values b);
                        ("volume", Values volume)] |} ∧
    length volume = length vols ∧
    length ts = length vols ∧ length a = length vols ∧ length b = length vols ∧
    (∀ rows, prices = JArr rows → rows ≠ [] → length rows = length vols).
Proof.
  intros Ht H. unfold process_data in H. rewrite Ht in H. cbn [negb] in H.
  first_ok H as prices Ep. first_ok H as df0 Edf0. first_ok H as total_volumes Ev.
  first_ok H as vols Evols. first_ok H as volume Evolume. first_ok H as df1 Edf1.
  destruct (DataFrame_new_shape _ _ Edf0) as (a & b & -> & Hb & Hrows).
  destruct (setitem_volume_shape _ _ _ _ Hb Edf1) as (a' & b' & -> & Ha' & Hb' & Hkeep).
  cbn [getitem columns dict_getitem dict_get String.eqb Ascii.eqb Bool.eqb] in H.
  rewrite bind_Ok in H. first_ok H as date Edate.
  destruct (to_datetime_ms_shape _ _ Edate) as (ts & -> & Hts).
  inversion H.
  pose proof (omap_length _ _ _ Evolume) as Hlen.
  exists prices, total_volumes, vols, volume, a', b', ts.
  split; [done|]. split; [done|]. split; [done|]. split; [done|].
  split; [done|]. split; [done|].
  split; [congruence|]. split; [congruence|]. split; [congruence|].
  intros rows Hrows' Hne. rewrite <- Hlen, <- Ha'.
  assert (a ≠ []) as Hane.
  { intros Ha. rewrite Ha in Hrows. specialize (Hrows rows Hrows'). by destruct rows. }
  destruct (Hkeep Hane) as [Heq _]. rewrite Heq. symmetry. by apply Hrows.
Qed.

Lemma getitem_str_truthy raw_data k v :
  getitem_str raw_data k = Ok v → truthy raw_data = true.
Proof.
  destruct raw_data as [| | | | | |fields]; try discriminate.
  unfold getitem_str, dict_getitem. by destruct fields.
Qed.

(** A table that [process_data] returns is the empty frame of line 44 or a
    date-indexed frame of three columns as long as the index. *)
Lemma process_data_returned_shape raw_data df :
  process_data raw_data = Ok df →
  df = DataFrame0 ∨
  ∃ ts a b volume,
    df = {| index := DatetimeIndex ts;
            columns := [("timestamp", Values a); ("price", Values b);
                        ("volume", Values volume)] |} ∧
    length a = length ts ∧ length b = length ts ∧ length volume = length ts.
Proof.
  intros H. destruct (truthy raw_data) eqn:Ht.
  - right.
    destruct (process_data_steps _ _ Ht H)
      as (? & ? & vols & volume & a & b & ts & _ & _ & _ & _ & -> & ? & ? & ? & ? & _).
    exists ts, a, b, volume. split; [done|]. split; [|split]; congruence.
  - left. unfold process_data in H. rewrite Ht in H. by inversion H.
Qed.

(** A table returned for a non-empty [prices] list and a [total_volumes]
    list has one row per entry of each. *)
Lemma process_data_returned_rows raw_data rows vols df :
  getitem_str raw_data "prices" = Ok (JArr rows) →
  rows ≠ [] →
  getitem_str raw_data "total_volumes" = Ok (JArr vols) →
  process_data raw_data = Ok df →
  len df = length rows ∧ len df = length vols.
Proof.
  intros Hp Hne Hv H.
  destruct (process_data_steps _ _ (getitem_str_truthy _ _ _ Hp) H)
    as (prices & tv & vols' & volume & a & b & ts
        & Hp' & Hv' & Hiter & _ & -> & _ & Hts & _ & _ & Hrows).
  rewrite Hp in Hp'. inversion Hp'; subst prices.
  rewrite Hv in Hv'. inversion Hv'; subst tv.
  cbn [iter] in Hiter. inversion Hiter; subst vols'.
  unfold len. cbn [index Index_len]. rewrite Hts.
  split; [|done]. symmetry. by apply Hrows.
Qed.

(** *** Every step is described on a covered payload *)

Lemma missing_cells_null n : forallb is_null (replicate n missing) = true.
Proof. induction n; [done|]. exact IHn. Qed.

Lemma getitem_str_described raw_data k : getitem_str raw_data k ≠ OutOfModel.
Proof.
  destruct raw_data as [| | | | | |fields]; try done.
  unfold getitem_str, dict_getitem. by destruct (dict_get k fields).
Qed.

Lemma iter_described v : iter v ≠ OutOfModel.
Proof. by destruct v. Qed.

Lemma getitem_nat_described v i : getitem_nat v i ≠ OutOfModel.
Proof.
  destruct v as [| | | |s|items|]; try done; cbn [getitem_nat].
  - by destruct (String.get i s).
  - by destruct (items !! i).
Qed.

Lemma second_items_described vols :
  omap (λ vol, getitem_nat vol 1) vols ≠ OutOfModel.
Proof.
  induction vols as [|vol vols IH]; [done|]. cbn [omap].
  pose proof (getitem_nat_described vol 1) as Hv.
  destruct (getitem_nat vol 1) as [x| |]; [|done|done]. rewrite bind_Ok.
  by destruct (omap (λ vol, getitem_nat vol 1) vols).
Qed.

Lemma second_items_scalar vols volume :
  Forall (λ vol, ∀ v, getitem_nat vol 1 = Ok v → is_scalar v = true) vols →
  omap (λ vol, getitem_nat vol 1) vols = Ok volume →
  forallb is_scalar volume = true.
Proof.
  intros Hall. revert volume. induction Hall as [|vol vols Hvol _ IH]; intros volume H.
  - by inversion H.
  - cbn [omap] in H. first_ok H as x Ex. first_ok H as xs Exs.
    inversion H. cbn [forallb]. by rewrite (Hvol x eq_refl), (IH xs eq_refl).
Qed.

Lemma rows_as_lists (rs : list (list json)) : mapM as_list (JArr <$> rs) = Some rs.
Proof.
  induction rs as [|r rs IH]; [done|]. rewrite fmap_cons. cbn [mapM]. by rewrite IH.
Qed.

(** Line 46 on a covered [prices]: a raise, or a frame whose timestamp
    column [pd.to_datetime] is described for. *)
Lemma DataFrame_new_covered prices :
  is_scalar prices = true ∨
  (∃ rs : list (list json),
     prices = JArr (JArr <$> rs) ∧
     stamps_covered ((λ r, default missing (r !! 0)) <$> rs)) →
  (∃ e, DataFrame_new prices ["timestamp"; "price"] = Raise e) ∨
  ∃ a b,
    DataFrame_new prices ["timestamp"; "price"] =
      Ok {| index := RangeIndex (length a);
            columns := [("timestamp", Values a); ("price", Values b)] |} ∧
    length b = length a ∧ stamps_covered a.
Proof.
  intros [Hs|(rs & -> & Hstamps)].
  - destruct prices; try discriminate Hs; try (left; by eexists).
    right. exists [], []. split; [done|]. split; [done|]. by left.
  - destruct rs as [|r rs].
    + right. exists [], []. split; [done|]. split; [done|]. by left.
    + unfold DataFrame_new. rewrite fmap_cons. rewrite <- fmap_cons, rows_as_lists.
      cbn [length]. destruct (max_list (length <$> r :: rs) =? 2); [|left; by eexists].
      right. cbn [imap].
      exists ((λ r : list json, default missing (r !! 0)) <$> r :: rs),
             ((λ r : list json, default missing (r !! 1)) <$> r :: rs).
      rewrite !length_fmap. done.
Qed.

(** Line 47 on a list of scalars: a raise, or a frame whose timestamp
    column is the old one or all missing. *)
Lemma setitem_volume_covered a b volume :
  forallb is_scalar volume = true →
  length b = length a →
  stamps_covered a →
  setitem {| index := RangeIndex (length a);
             columns := [("timestamp", Values a); ("price", Values b)] |}
    "volume" volume = Raise ValueError ∨
  ∃ a' b',
    setitem {| index := RangeIndex (length a);
               columns := [("timestamp", Values a); ("price", Values b)] |}
      "volume" volume =
      Ok {| index := RangeIndex (length volume);
            columns := [("timestamp", Values a'); ("price", Values b');
                        ("volume", Values volume)] |} ∧
    stamps_covered a'.
Proof.
  intros Hs Hb Ha. unfold setitem. rewrite Hs.
  cbn [negb len index Index_len columns].
  destruct ((length a =? 0) && negb (is_nil volume)) eqn:E.
  - right. exists (replicate (length volume) missing), (replicate (length volume) missing).
    split; [done|]. left. apply missing_cells_null.
  - destruct (length volume =? length a) eqn:El; [|by left].
    apply Nat.eqb_eq in El. right. exists a, b. rewrite El. done.
Qed.

(** Line 48 on a covered timestamp column: a raise or one date per cell. *)
Lemma to_datetime_ms_covered a :
  stamps_covered a → to_datetime_ms (Values a) ≠ OutOfModel.
Proof.
  intros [Hnull|(zs & -> & Hzs)]; unfold to_datetime_ms.
  - by rewrite Hnull.
  - destruct (forallb is_null (JInt <$> zs)); [done|].
    assert (mapM as_int (JInt <$> zs) = Some zs) as ->.
    { clear. induction zs as [|z zs IH]; [done|].
      rewrite fmap_cons. cbn [mapM]. by rewrite IH. }
    assert (forallb in_int64 zs = true) as ->.
    { clear -Hzs. induction Hzs as [|z zs Hz _ IH]; [done|]. simpl. by rewrite Hz. }
    cbn [negb]. by destruct (forallb in_bounds zs).
Qed.

(** On a covered payload [process_data] raises or returns a table. *)
Lemma process_data_covered raw_data :
  covered raw_data → process_data raw_data ≠ OutOfModel.
Proof.
  intros [Hprices Hvolumes] H. unfold process_data in H.
  destruct (truthy raw_data); [|discriminate H]. cbn [negb] in H.
  pose proof (getitem_str_described raw_data "prices") as Hp.
  destruct (getitem_str raw_data "prices") as [prices| |]; [|discriminate H|done].
  rewrite bind_Ok in H.
  destruct (DataFrame_new_covered prices (Hprices prices eq_refl))
    as [[e He]|(a & b & Hdf & Hb & Ha)]; [by rewrite He in H|].
  rewrite Hdf, bind_Ok in H.
  pose proof (getitem_str_described raw_data "total_volumes") as Hv.
  destruct (getitem_str raw_data "total_volumes") as [tv| |] eqn:Etv; [|discriminate H|done].
  rewrite bind_Ok in H.
  pose proof (iter_described tv) as Hiter.
  destruct (iter tv) as [vols| |] eqn:Evols; [|discriminate H|done].
  rewrite bind_Ok in H.
  pose proof (second_items_described vols) as Hsecond.
  destruct (omap (λ vol, getitem_nat vol 1) vols) as [volume| |] eqn:Evolume;
    [|discriminate H|done].
  rewrite bind_Ok in H.
  pose proof (second_items_scalar _ _ (Hvolumes tv vols eq_refl Evols) Evolume) as Hscalar.
  destruct (setitem_volume_covered a b volume Hscalar Hb Ha)
    as [Hraise|(a' & b' & Hset & Ha')]; [by rewrite Hraise in H|].
  rewrite Hset, bind_Ok in H.
  cbn [getitem columns dict_getitem dict_get String.eqb Ascii.eqb Bool.eqb] in H.
  rewrite bind_Ok in H.
  pose proof (to_datetime_ms_covered a' Ha') as Hdate.
  destruct (to_datetime_ms (Values a')) as [date| |]; [|discriminate H|done].
  rewrite bind_Ok in H. discriminate H.
Qed.

(** X5: on every covered payload ([prices] a scalar, null or a list of
    lists whose first items are all int64 integers or all missing, second
    items of [total_volumes] scalars) [process_data] either raises or
    returns a table, and the table is either the empty frame of line 44 or
    a date-indexed frame with exactly the columns timestamp, price and
    volume, each as long as the index. *)
Theorem process_data_table_shape raw_data :
  covered raw_data →
  (∃ e, process_data raw_data = Raise e) ∨
  process_data raw_data = Ok DataFrame0 ∨
  ∃ ts a b volume,
    process_data raw_data =
      Ok {| index := DatetimeIndex ts;
            columns := [("timestamp", Values a); ("price", Values b);
                        ("volume", Values volume)] |} ∧
    length a = length ts ∧ length b = length ts ∧ length volume = length ts.
Proof.
  intros Hc. pose proof (process_data_covered _ Hc) as Hd.
  destruct (process_data raw_data) as [df|e|] eqn:E; [|left; by eexists|done].
  right. destruct (process_data_returned_shape _ _ E) as [->|(ts & a & b & v & -> & ?)].
  - by left.
  - right. by exists ts, a, b, v.
Qed.

Lemma two_rows_covered : covered (JObj two_rows).
Proof.
  split.
  - intros prices [= <-]. right.
    exists [[JInt 1700000000000; JFloat 100]; [JInt 1700000060000; JFloat 110]].
    split; [reflexivity|]. right. exists [1700000000000; 1700000060000]%Z.
    split; [reflexivity|]. repeat constructor.
  - intros tv vols [= <-] [= <-].
    repeat constructor; intros v [= <-]; reflexivity.
Defined.

Lemma process_data_table_shape_witness :
  (∃ e, process_data (JObj two_rows) = Raise e) ∨
  process_data (JObj two_rows) = Ok DataFrame0 ∨
  ∃ ts a b volume,
    process_data (JObj two_rows) =
      Ok {| index := DatetimeIndex ts;
            columns := [("timestamp", Values a); ("price", Values b);
                        ("volume", Values volume)] |} ∧
    length a = length ts ∧ length b = length ts ∧ length volume = length ts.
Proof.
  apply (process_data_table_shape (JObj two_rows)). exact two_rows_covered.
Defined.

(** X6: on a covered payload whose [prices] is a non-empty list and whose
    [total_volumes] is a list, [process_data] either raises or returns a
    table with exactly one row per entry of [prices] and per entry of
    [total_volumes]; so when the two lists differ in length it raises:
    nothing is cut off and nothing is filled in. *)
Theorem process_data_never_truncates raw_data rows vols :
  covered raw_data →
  getitem_str raw_data "prices" = Ok (JArr rows) →
  rows ≠ [] →
  getitem_str raw_data "total_volumes" = Ok (JArr vols) →
  ((∃ e, process_data raw_data = Raise e) ∨
   ∃ df, process_data raw_data = Ok df ∧
         len df = length rows ∧ len df = length vols) ∧
  (length rows ≠ length vols → ∃ e, process_data raw_data = Raise e).
Proof.
  intros Hc Hp Hne Hv. pose proof (process_data_covered _ Hc) as Hd.
  destruct (process_data raw_data) as [df|e|] eqn:E; [|split; [left|]; by eexists|done].
  destruct (process_data_returned_rows _ _ _ _ Hp Hne Hv E) as [Hrows Hvols].
  split; [right; by exists df|]. intros Hlen. congruence.
Qed.

Lemma process_data_never_truncates_witness :
  ((∃ e, process_data (JObj two_rows) = Raise e) ∨
   ∃ df, process_data (JObj two_rows) = Ok df ∧
         len df = length (pair_row <$> two_prices) ∧
         len df = length (pair_row <$> two_volumes)) ∧
  (length (pair_row <$> two_prices) ≠ length (pair_row <$> two_volumes) →
   ∃ e, process_data (JObj two_rows) = Raise e).
Proof.
  apply (process_data_never_truncates (JObj two_rows)
           (pair_row <$> two_prices) (pair_row <$> two_volumes)).
  - exact two_rows_covered.
  - reflexivity.
  - discriminate.
  - reflexivity.
Defined.

(** X7: when [prices] is null or an empty list and [total_volumes] holds
    k >= 1 pairs, no error is raised: the table has k rows, each with the
    volume of its pair, a missing timestamp, a missing price and the key
    NaT. *)
Theorem process_data_pads_missing_prices fields prices (vs : list (Z * float)) :
  dict_get "prices" fields = Some prices →
  prices = JNull ∨ prices = JArr [] →
  dict_get "total_volumes" fields = Some (JArr (pair_row <$> vs)) →
  vs ≠ [] →
  process_data (JObj fields) =
    Ok {| index := DatetimeIndex (replicate (length vs) NaT);
          columns := [("timestamp", Values (replicate (length vs) missing));
                      ("price", Values (replicate (length vs) missing));
                      ("volume", Values ((λ e, JFloat e.2) <$> vs))] |}.
Proof.
  intros Hp Hshape Hv Hne. unfold process_data.
  rewrite (truthy_has_key _ _ _ Hp). cbn [negb].
  rewrite (dict_getitem_Some _ _ _ Hp), (dict_getitem_Some _ _ _ Hv), !bind_Ok.
  assert (DataFrame_new prices ["timestamp"; "price"] =
            Ok {| index := RangeIndex 0;
                  columns := [("timestamp", Values []); ("price", Values [])] |}) as ->.
  { by destruct Hshape as [-> | ->]. }
  rewrite !bind_Ok. cbn [iter]. rewrite bind_Ok, volume_of_pairs, bind_Ok.
  unfold setitem. rewrite floats_scalar.
  cbn [negb len index Index_len Nat.eqb andb].
  assert (is_nil ((λ e : Z * float, JFloat e.2) <$> vs) = false) as ->
    by (by destruct vs).
  cbn [negb]. rewrite bind_Ok, length_fmap.
  cbn [columns fmap list_fmap prod_map fst snd id reindexed_missing dict_set
       String.eqb Ascii.eqb Bool.eqb getitem dict_getitem dict_get].
  rewrite bind_Ok. unfold to_datetime_ms. rewrite missing_cells_null, bind_Ok.
  by rewrite length_replicate.
Qed.

Lemma process_data_pads_missing_prices_witness :
  process_data (JObj [("prices", JNull); ("total_volumes", JArr (pair_row <$> two_volumes))]) =
    Ok {| index := DatetimeIndex (replicate (length two_volumes) NaT);
          columns := [("timestamp", Values (replicate (length two_volumes) missing));
                      ("price", Values (replicate (length two_volumes) missing));
                      ("volume", Values ((λ e, JFloat e.2) <$> two_volumes))] |}.
Proof.
  apply (process_data_pads_missing_prices
           [("prices", JNull); ("total_volumes", JArr (pair_row <$> two_volumes))]
           JNull two_volumes).
  - reflexivity.
  - by left.
  - reflexivity.
  - discriminate.
Defined.

(** X1: the three ways the top level of a truthy payload can be wrong.  A
    payload that is not an object cannot be subscripted by a key
    (TypeError); an object without [prices] raises KeyError at line 46; an
    object whose [prices] makes a frame but that has no [total_volumes]
    raises KeyError at line 47. *)
Theorem process_data_malformed_payload :
  (∀ raw_data,
     truthy raw_data = true → (∀ fields, raw_data ≠ JObj fields) →
     process_data raw_data = Raise TypeError) ∧
  (∀ fields,
     fields ≠ [] → dict_get "prices" fields = None →
     process_data (JObj fields) = Raise (KeyError "prices")) ∧
  (∀ fields prices df0,
     dict_get "prices" fields = Some prices →
     DataFrame_new prices ["timestamp"; "price"] = Ok df0 →
     dict_get "total_volumes" fields = None →
     process_data (JObj fields) = Raise (KeyError "total_volumes")).
Proof.
  split; [|split].
  - intros raw_data Ht Hobj. unfold process_data. rewrite Ht. cbn [negb].
    destruct raw_data; try done. by destruct (Hobj fields).
  - intros fields Hne Hp. unfold process_data.
    assert (getitem_str (JObj fields) "prices" = Raise (KeyError "prices")) as Hraise
      by (unfold getitem_str, dict_getitem; by rewrite Hp).
    rewrite Hraise. by destruct fields.
  - intros fields prices df0 Hp Hdf Hv. unfold process_data.
    rewrite (truthy_has_key _ _ _ Hp). cbn [negb].
    rewrite (dict_getitem_Some _ _ _ Hp), bind_Ok, Hdf, bind_Ok.
    assert (getitem_str (JObj fields) "total_volumes" = Raise (KeyError "total_volumes"))
      as Hraise by (unfold getitem_str, dict_getitem; by rewrite Hv).
    by rewrite Hraise.
Qed.

Lemma process_data_malformed_payload_witness :
  process_data (JArr [JInt 1]) = Raise TypeError ∧
  process_data error_body = Raise (KeyError "prices") ∧
  process_data (JObj [("prices", JArr (pair_row <$> two_prices))])
    = Raise (KeyError "total_volumes").
Proof.
  destruct process_data_malformed_payload as (H1 & H2 & H3).
  split; [|split].
  - apply (H1 (JArr [JInt 1])); [reflexivity|discriminate].
  - apply (H2 [("error", JStr "coin not found")]); [discriminate|reflexivity].
  - apply (H3 [("prices", JArr (pair_row <$> two_prices))]
              (JArr (pair_row <$> two_prices))
              {| index := RangeIndex 2;
                 columns := [("timestamp", Values (JInt <$> [1700000000000; 1700000060000]%Z));
                             ("price", Values (JFloat <$> [100; 110]%float))] |});
      reflexivity.
Defined.

(** X2: a [prices] value that cannot make a two-column frame raises
    ValueError at line 46, before [total_volumes] is looked at: a scalar
    (number, string, boolean), or a non-empty list of lists whose longest
    entry does not have exactly two items. *)
Theorem process_data_malformed_prices fields prices :
  dict_get "prices" fields = Some prices →
  (is_scalar prices = true ∧ prices ≠ JNull) ∨
  (∃ rs : list (list json),
     prices = JArr (JArr <$> rs) ∧ rs ≠ [] ∧ max_list (length <$> rs) ≠ 2) →
  process_data (JObj fields) = Raise ValueError.
Proof.
  intros Hp Hshape. unfold process_data.
  rewrite (truthy_has_key _ _ _ Hp). cbn [negb].
  rewrite (dict_getitem_Some _ _ _ Hp), bind_Ok.
  assert (DataFrame_new prices ["timestamp"; "price"] = Raise ValueError) as ->; [|done].
  destruct Hshape as [[Hs Hn]|(rs & -> & Hne & Hw)].
  - by destruct prices.
  - assert (mapM as_list (JArr <$> rs) = Some rs) as Hrows.
    { clear. induction rs as [|r rs IH]; [done|].
      rewrite fmap_cons. cbn [mapM]. by rewrite IH. }
    unfold DataFrame_new. destruct (JArr <$> rs) as [|r rows] eqn:E; [by destruct rs|].
    rewrite Hrows. cbn [length].
    by destruct (max_list (length <$> rs) =? 2) eqn:Ew; [apply Nat.eqb_eq in Ew|].
Qed.

Lemma process_data_malformed_prices_witness :
  process_data (JObj [("prices", JArr (JArr <$> [[JInt 1; JFloat 2; JFloat 3]]));
                      ("total_volumes", JArr [])]) = Raise ValueError.
Proof.
  apply (process_data_malformed_prices
           [("prices", JArr (JArr <$> [[JInt 1; JFloat 2; JFloat 3]]));
            ("total_volumes", JArr [])]
           (JArr (JArr <$> [[JInt 1; JFloat 2; JFloat 3]]))).
  - reflexivity.
  - right. exists [[JInt 1; JFloat 2; JFloat 3]].
    split; [reflexivity|]. split; [discriminate|]. simpl. lia.
Defined.

Lemma omap_short_entry (vs : list (list json)) :
  Exists (λ l, length l < 2) vs →
  omap (λ vol, getitem_nat vol 1) (JArr <$> vs) = Raise IndexError.
Proof.
  induction vs as [|l vs IH]; intros Hex; [by inversion Hex|].
  rewrite fmap_cons. cbn [omap getitem_nat].
  destruct (l !! 1) as [x|] eqn:El.
  - rewrite bind_Ok. apply Exists_cons in Hex as [Hl|Hex].
    + apply lookup_lt_Some in El. lia.
    + by rewrite (IH Hex).
  - done.
Qed.

(** X3: when the frame of line 46 is built and [total_volumes] is a list
    of lists one of which has fewer than two items, the comprehension of
    line 47 raises IndexError. *)
Theorem process_data_short_volume_entry fields prices df0 (vs : list (list json)) :
  dict_get "prices" fields = Some prices →
  DataFrame_new prices ["timestamp"; "price"] = Ok df0 →
  dict_get "total_volumes" fields = Some (JArr (JArr <$> vs)) →
  Exists (λ l, length l < 2) vs →
  process_data (JObj fields) = Raise IndexError.
Proof.
  intros Hp Hdf Hv Hex. unfold process_data.
  rewrite (truthy_has_key _ _ _ Hp). cbn [negb].
  rewrite (dict_getitem_Some _ _ _ Hp), bind_Ok, Hdf, bind_Ok.
  rewrite (dict_getitem_Some _ _ _ Hv), bind_Ok. cbn [iter].
  by rewrite bind_Ok, (omap_short_entry _ Hex).
Qed.

Lemma process_data_short_volume_entry_witness :
  process_data (JObj [("prices", JArr (pair_row <$> two_prices));
                      ("total_volumes",
                       JArr (JArr <$> [[JInt 1700000000000; JFloat 5]; [JInt 1700000060000]]))])
    = Raise IndexError.
Proof.
  apply (process_data_short_volume_entry
           [("prices", JArr (pair_row <$> two_prices));
            ("total_volumes",
             JArr (JArr <$> [[JInt 1700000000000; JFloat 5]; [JInt 1700000060000]]))]
           (JArr (pair_row <$> two_prices))
           {| index := RangeIndex 2;
              columns := [("timestamp", Values (JInt <$> [1700000000000; 1700000060000]%Z));
                          ("price", Values (JFloat <$> [100; 110]%float))] |}
           [[JInt 1700000000000; JFloat 5]; [JInt 1700000060000]]).
  - reflexivity.
  - reflexivity.
  - reflexivity.
  - apply Exists_cons_tl, Exists_cons_hd. simpl. lia.
Defined.

Lemma forallb_fst_false (P : Z → bool) (ps : list (Z * float)) :
  Exists (λ e, P e.1 = false) ps → forallb P (ps.*1) = false.
Proof.
  induction 1 as [e ps He|e ps _ IH]; rewrite fmap_cons; simpl.
  - by rewrite He.
  - rewrite IH. by destruct (P e.1).
Qed.

(** X4: aligned pairs of which one timestamp, though an int64 count of
    milliseconds, lies outside what [datetime64[ns]] can hold: line 48
    raises OutOfBoundsDatetime and no table is returned. *)
Theorem process_data_timestamp_out_of_bounds
  (fields : list (string * json)) (ps vs : list (Z * float)) :
  dict_get "prices" fields = Some (JArr (pair_row <$> ps)) →
  dict_get "total_volumes" fields = Some (JArr (pair_row <$> vs)) →
  length ps = length vs →
  Forall (λ e, in_int64 e.1 = true) ps →
  Exists (λ e, in_bounds e.1 = false) ps →
  process_data (JObj fields) = Raise OutOfBoundsDatetime.
Proof.
  intros Hp Hv Hlen H64 Hout.
  assert (ps ≠ []) as Hne by (intros ->; inversion Hout).
  unfold process_data.
  rewrite (truthy_has_key _ _ _ Hp). cbn [negb].
  rewrite (dict_getitem_Some _ _ _ Hp), (dict_getitem_Some _ _ _ Hv), !bind_Ok.
  rewrite (DataFrame_new_pairs _ Hne), !bind_Ok. cbn [iter].
  rewrite bind_Ok, volume_of_pairs, bind_Ok.
  unfold setitem. rewrite floats_scalar. cbn [negb len index Index_len].
  rewrite length_fmap.
  assert ((length ps =? 0) = false) as -> by (apply Nat.eqb_neq; by destruct ps).
  cbn [andb]. rewrite Hlen, Nat.eqb_refl. cbn [negb]. rewrite bind_Ok.
  cbn [columns dict_set String.eqb Ascii.eqb Bool.eqb getitem dict_getitem dict_get].
  rewrite bind_Ok. unfold to_datetime_ms.
  rewrite (ints_not_null _ Hne), ints_as_int.
  rewrite (forallb_fst in_int64) by done.
  by rewrite (forallb_fst_false in_bounds).
Qed.

Lemma process_data_timestamp_out_of_bounds_witness :
  process_data (JObj [("prices", JArr (pair_row <$> [(10000000000000000%Z, 100%float)]));
                      ("total_volumes", JArr (pair_row <$> [(10000000000000000%Z, 5%float)]))])
    = Raise OutOfBoundsDatetime.
Proof.
  apply (process_data_timestamp_out_of_bounds
           [("prices", JArr (pair_row <$> [(10000000000000000%Z, 100%float)]));
            ("total_volumes", JArr (pair_row <$> [(10000000000000000%Z, 5%float)]))]
           [(10000000000000000%Z, 100%float)] [(10000000000000000%Z, 5%float)]).
  - reflexivity.
  - reflexivity.
  - reflexivity.
  - repeat constructor.
  - apply Exists_cons_hd. reflexivity.
Defined.

(** ** Dict displays and the select box *)

Section display_facts.
Context {V : Type}.
Implicit Types (d items : list (string * V)) (k : string) (v : V).

Lemma dict_display_snoc items k v :
  dict_display (items ++ [(k, v)]) = dict_set k v (dict_display items).
Proof. unfold dict_display. by rewrite foldl_app. Qed.

Lemma dict_keys_set k v d :
  dict_keys (dict_set k v d) =
    if decide (k ∈ dict_keys d) then dict_keys d else dict_keys d ++ [k].
Proof.
  unfold dict_keys. induction d as [|[k' v'] d IH].
  - case_decide as Hin; [by apply elem_of_nil in Hin|done].
  - cbn [dict_set]. destruct (String.eqb k k') eqn:E.
    + clear IH. apply String.eqb_eq in E as ->.
      destruct (decide (k' ∈ ((k', v') :: d).*1)) as [_|Hout]; [done|].
      destruct Hout. rewrite fmap_cons. apply list_elem_of_here.
    + apply String.eqb_neq in E.
      change (((k', v') :: dict_set k v d).*1) with (k' :: (dict_set k v d).*1).
      rewrite IH. clear IH.
      destruct (decide (k ∈ d.*1)) as [Hin|Hout],
               (decide (k ∈ ((k', v') :: d).*1)) as [Hin'|Hout']; try done.
      * destruct Hout'. rewrite fmap_cons. by apply list_elem_of_further.
      * rewrite fmap_cons in Hin'. by apply elem_of_cons in Hin' as [?|?].
Qed.

Lemma dict_keys_display_NoDup items : NoDup (dict_keys (dict_display items)).
Proof.
  induction items as [|[k v] items IH] using rev_ind; [constructor|].
  rewrite dict_display_snoc, dict_keys_set. case_decide; [done|].
  apply NoDup_app. split; [done|]. split; [|apply NoDup_singleton].
  intros x Hx Hx'. apply list_elem_of_singleton in Hx'. by subst.
Qed.

Lemma dict_keys_display_elem items k :
  k ∈ dict_keys (dict_display items) ↔ k ∈ items.*1.
Proof.
  induction items as [|[k' v'] items IH] using rev_ind; [done|].
  rewrite dict_display_snoc, dict_keys_set, fmap_app, elem_of_app.
  cbn [fmap list_fmap fst]. rewrite list_elem_of_singleton, <- IH.
  case_decide; [|by rewrite elem_of_app, list_elem_of_singleton].
  split; [by left|]. intros [?| ->]; done.
Qed.

Lemma dict_get_key d k : k ∈ dict_keys d → ∃ v, dict_getitem d k = Ok v.
Proof.
  unfold dict_keys, dict_getitem. induction d as [|[k' v'] d IH]; intros Hin.
  - by apply elem_of_nil in Hin.
  - cbn [dict_get]. destruct (String.eqb k k') eqn:E; [by eexists|].
    apply String.eqb_neq in E. rewrite fmap_cons in Hin.
    apply elem_of_cons in Hin as [?|Hin]; [done|]. by apply IH.
Qed.

(** Subscripting a dict display gives the value of the last item
    written with that key, whatever stood before it, and KeyError when no
    item has the key. *)
Theorem dict_display_getitem items k :
  dict_getitem (dict_display items) k = dict_getitem (reverse items) k.
Proof.
  unfold dict_getitem.
  assert (dict_get k (dict_display items) = dict_get k (reverse items)) as ->; [|done].
  induction items as [|[k' v'] items IH] using rev_ind; [done|].
  rewrite dict_display_snoc, reverse_snoc. cbn [dict_get].
  destruct (String.eqb k k') eqn:E.
  - apply String.eqb_eq in E as ->. apply dict_get_set_eq.
  - apply String.eqb_neq in E. rewrite dict_get_set_ne by done. exact IH.
Qed.
End display_facts.

(** X8: the keys of a dict display are distinct and are the keys written in
    it, and each of them can be subscripted.  For the select box of lines
    73-78: every option it offers is a key of [COIN_MAP], so line 78 never
    raises KeyError on a selected option. *)
Theorem every_option_resolves :
  (∀ items : list (string * string),
     NoDup (dict_keys (dict_display items)) ∧
     (∀ k, k ∈ dict_keys (dict_display items) ↔ k ∈ items.*1) ∧
     (∀ k, k ∈ dict_keys (dict_display items) →
           ∃ v, dict_getitem (dict_display items) k = Ok v)) ∧
  (∀ selected_coin_name, selected_coin_name ∈ dict_keys COIN_MAP →
     ∃ selected_coin_id, dict_getitem COIN_MAP selected_coin_name = Ok selected_coin_id).
Proof.
  split.
  - intros items. split; [apply dict_keys_display_NoDup|].
    split; [apply dict_keys_display_elem|]. intros k. apply dict_get_key.
  - intros name. apply dict_get_key.
Qed.

Lemma every_option_resolves_witness :
  (∃ v, dict_getitem (dict_display [("XRP", "first"); ("XRP", "second")]) "XRP" = Ok v) ∧
  (∃ selected_coin_id, dict_getitem COIN_MAP "PI" = Ok selected_coin_id).
Proof.
  destruct every_option_resolves as [Hany Hcoin]. split.
  - apply (proj2 (proj2 (Hany [("XRP", "first"); ("XRP", "second")])) "XRP").
    apply list_elem_of_In. simpl. tauto.
  - apply (Hcoin "PI"). apply list_elem_of_In. simpl. tauto.
Defined.

(** ** More on the memo *)

Lemma fresh_entry w now coin_id days :
  fresh w now coin_id days = true →
  ∃ e, memo w !! (coin_id, days) = Some e ∧ (now < stored_at e + ttl * 1000)%Z.
Proof.
  unfold fresh. destruct (memo w !! (coin_id, days)) as [e|]; [|done].
  intros H. exists e. split; [done|]. by apply Z.ltb_lt.
Qed.

(** X9: a call for one (coin, days) pair leaves the memo entries of every
    other pair as they were: looking at another coin neither evicts nor
    refreshes what is stored for this one. *)
Theorem fetch_leaves_other_keys net now coin_id days coin_id' days' w :
  (coin_id, days) ≠ (coin_id', days') →
  memo (fetch_crypto_data net now coin_id days w).2 !! (coin_id', days')
    = memo w !! (coin_id', days') ∧
  ∀ t, fresh (fetch_crypto_data net now coin_id days w).2 t coin_id' days'
         = fresh w t coin_id' days'.
Proof.
  intros Hne.
  assert (memo (fetch_crypto_data net now coin_id days w).2 !! (coin_id', days')
            = memo w !! (coin_id', days')) as Hmemo.
  { destruct (fresh w now coin_id days) eqn:Hf.
    - destruct (fresh_entry _ _ _ _ Hf) as (e & He & Ht).
      by rewrite (fetch_hit _ _ _ _ _ _ He Ht).
    - rewrite (fetch_miss _ _ _ _ _ Hf). cbn [snd memo].
      by apply lookup_insert_ne. }
  split; [exact Hmemo|]. intros t. unfold fresh. by rewrite Hmemo.
Qed.

Lemma fetch_leaves_other_keys_witness :
  memo (fetch_crypto_data down 0%Z "bitcoin" 60%Z cold).2 !! ("ethereum", 60%Z)
    = memo cold !! ("ethereum", 60%Z) ∧
  ∀ t, fresh (fetch_crypto_data down 0%Z "bitcoin" 60%Z cold).2 t "ethereum" 60%Z
         = fresh cold t "ethereum" 60%Z.
Proof.
  apply (fetch_leaves_other_keys down 0%Z "bitcoin" 60%Z "ethereum" 60%Z cold).
  discriminate.
Defined.

(** X10: a call served from the memo draws again exactly the notices the
    stored call drew (the "Fetching latest data" notice, and the "Error
    fetching data" notice when the stored call had failed), returns the
    stored value, and sends nothing, whatever the network would answer
    now. *)
Theorem hit_replays_the_stored_call net coin_id days (t0 : Z) w :
  fresh w t0 coin_id days = false →
  let first := fetch_crypto_data net t0 coin_id days w in
  let drawn := notices coin_id (net t0 (market_chart_url coin_id days)) in
  page first.2 = page w ++ drawn ∧
  ∀ net' t w1,
    memo w1 = memo first.2 → (t < t0 + 600 * 1000)%Z →
    fetch_crypto_data net' t coin_id days w1 =
      (first.1, {| memo := memo w1; page := page w1 ++ drawn; sent := sent w1 |}).
Proof.
  intros Hf. cbv zeta. rewrite (fetch_miss _ _ _ _ _ Hf). cbv zeta. cbn [fst snd page memo].
  split; [done|]. intros net' t w1 Hm Ht.
  erewrite (fetch_hit net' t coin_id days w1);
    [|rewrite Hm; apply lookup_insert_eq|cbn [stored_at]; unfold ttl; lia].
  done.
Qed.

Lemma hit_replays_the_stored_call_witness :
  let first := fetch_crypto_data down 0%Z "bitcoin" 60%Z cold in
  let drawn := notices "bitcoin" (down 0%Z (market_chart_url "bitcoin" 60%Z)) in
  page first.2 = page cold ++ drawn ∧
  ∀ net' t w1,
    memo w1 = memo first.2 → (t < 0 + 600 * 1000)%Z →
    fetch_crypto_data net' t "bitcoin" 60%Z w1 =
      (first.1, {| memo := memo w1; page := page w1 ++ drawn; sent := sent w1 |}).
Proof.
  apply (hit_replays_the_stored_call down "bitcoin" 60%Z 0%Z cold). reflexivity.
Defined.

(** ** More on one run of the script *)

Lemma quiet_render name raw_data : quiet (render name raw_data).
Proof.
  unfold render. destruct (truthy raw_data); [|apply quiet_draw].
  apply quiet_bind; [apply quiet_lift|]. intros df. apply quiet_presenter.
Qed.

Lemma rerun_miss_render net now count name id w :
  dict_get name COIN_MAP = Some id →
  fresh w now id DAYS = false →
  rerun net now count name w =
    finish now count
      (render name (fetched (net now (market_chart_url id DAYS)))
         (fetched_world net now id w)).
Proof.
  intros Hid Hf. rewrite (rerun_miss _ _ _ _ _ _ Hid Hf). unfold render.
  by destruct (truthy _).
Qed.

(** The run, once the selection is resolved and the fetch was served from
    the memo. *)
Lemma rerun_hit net now count name id w e :
  dict_get name COIN_MAP = Some id →
  memo w !! (id, DAYS) = Some e →
  (now < stored_at e + ttl * 1000)%Z →
  rerun net now count name w =
    finish now count (render name (value e) (replayed_world e w)).
Proof.
  intros Hid He Ht. unfold rerun, script, mbind, M_bind, st.bind.
  cbn [draw lift fresh_page memo page sent app].
  unfold dict_getitem. rewrite Hid.
  rewrite (fetch_hit _ _ _ _ _ e) by done. cbn [memo page sent app].
  unfold finish, render, replayed_world, header, fetch_failed_banner. cbn [app].
  destruct (truthy _).
  - unfold mbind, M_bind, st.bind, lift.
    destruct (process_data _) as [df| |]; try reflexivity.
    destruct (presenter name df _) as [[[]| |] w2]; try reflexivity.
    unfold draw, trailer. cbn [memo page sent]. by rewrite <- !app_assoc.
  - unfold draw, trailer. cbn [memo page sent]. by rewrite <- !app_assoc.
Qed.

(** A label that is no key of [COIN_MAP] stops the run at line 78. *)
Lemma rerun_unknown net now count name w :
  dict_get name COIN_MAP = None →
  rerun net now count name w =
    (Raise (KeyError name), {| memo := memo w; page := header; sent := sent w |}).
Proof.
  intros Hid. unfold rerun, script, mbind, M_bind, st.bind.
  cbn [draw lift fresh_page memo page sent app].
  unfold dict_getitem. by rewrite Hid.
Qed.

Lemma finish_quiet now count r :
  sent (finish now count r).2 = sent r.2 ∧ memo (finish now count r).2 = memo r.2.
Proof. by destruct r as [[[]| |] w]. Qed.

(** X11: what one run sends is decided by the selection and the memo.
    With an unknown label, or a fresh entry for the selected coin, it sends
    nothing; otherwise it sends exactly one request, to the URL of the
    selected coin.  So a run sends at most one request; and it changes the
    memo at no key other than that of the selected coin. *)
Theorem run_sends_at_most_one_request net now count name w :
  let w' := (rerun net now count name w).2 in
  sent w' =
    match dict_get name COIN_MAP with
    | Some id =>
        if fresh w now id DAYS then sent w
        else sent w ++ [(now, "https://api.coingecko.com/api/v3/coins/" +:+ id
                                +:+ "/market_chart?vs_currency=usd&days=60")]
    | None => sent w
    end ∧
  length (sent w') ≤ length (sent w) + 1 ∧
  (∀ coin_id days, dict_get name COIN_MAP ≠ Some coin_id ∨ days ≠ DAYS →
     memo w' !! (coin_id, days) = memo w !! (coin_id, days)).
Proof.
  cbv zeta. destruct (dict_get name COIN_MAP) as [id|] eqn:Hid.
  - destruct (fresh w now id DAYS) eqn:Hf.
    + destruct (fresh_entry _ _ _ _ Hf) as (e & He & Ht).
      rewrite (rerun_hit _ _ _ _ _ _ _ Hid He Ht).
      destruct (finish_quiet now count (render name (value e) (replayed_world e w)))
        as [-> ->].
      destruct (quiet_render name (value e) (replayed_world e w)) as [-> ->].
      cbn [replayed_world sent memo]. split; [done|]. split; [lia|done].
    + rewrite (rerun_miss_render _ _ _ _ _ _ Hid Hf).
      destruct (finish_quiet now count
                  (render name (fetched (net now (market_chart_url id DAYS)))
                     (fetched_world net now id w))) as [-> ->].
      destruct (quiet_render name (fetched (net now (market_chart_url id DAYS)))
                  (fetched_world net now id w)) as [-> ->].
      cbn [fetched_world sent memo]. split; [by rewrite market_chart_url_60|].
      split; [rewrite length_app; simpl; lia|].
      intros coin_id days Hother. apply lookup_insert_ne.
      intros [= <- <-]. by destruct Hother.
  - rewrite (rerun_unknown _ _ _ _ _ Hid). cbn [snd sent memo].
    split; [done|]. split; [lia|done].
Qed.

Lemma run_sends_at_most_one_request_witness :
  let w' := (rerun down 0%Z 0%Z "BTC" cold).2 in
  sent w' =
    [(0%Z, "https://api.coingecko.com/api/v3/coins/bitcoin/market_chart?vs_currency=usd&days=60")] ∧
  length (sent w') ≤ length (sent cold) + 1 ∧
  memo w' !! ("ethereum", DAYS) = memo cold !! ("ethereum", DAYS).
Proof.
  destruct (run_sends_at_most_one_request down 0%Z 0%Z "BTC" cold) as (H1 & H2 & H3).
  split; [exact H1|]. split; [exact H2|].
  apply (H3 "ethereum" DAYS). left. discriminate.
Defined.

(** X12: a response that is no HTTP error and whose JSON body is falsy
    ([{}], [[]], [null], [0], ...) is shown as a fetch failure: the run
    draws the "Failed to fetch data" banner, with no "Error fetching data"
    notice before it, never calls [process_data] on it and draws neither
    the warning nor a chart. *)
Theorem falsy_body_is_shown_as_fetch_failure net now count name id w r payload :
  dict_get name COIN_MAP = Some id →
  fresh w now id DAYS = false →
  net now (market_chart_url id DAYS) = inr r →
  requests.raise_for_status r = inr () →
  requests.body r = inr payload →
  truthy payload = false →
  (fetch_crypto_data net now id DAYS (fresh_page w)).1 = Ok payload ∧
  ∃ w', rerun net now count name w = (Ok (), w') ∧
        page w' =
          header ++
          [info ("Fetching latest data for " +:+ str_title id +:+ "...");
           error "Failed to fetch data from the API. Please try again later."] ++
          trailer now count.
Proof.
  intros Hid Hf Hgot Hst Hbody Ht.
  assert (response_data (net now (market_chart_url id DAYS)) = inr payload) as Hdata.
  { unfold response_data, requests.json. by rewrite Hgot, Hst, Hbody. }
  split.
  - rewrite fetch_miss by exact Hf. cbv zeta. unfold fetched. by rewrite Hdata.
  - rewrite (rerun_miss _ _ _ _ _ _ Hid Hf).
    unfold fetched_world, fetched, notices. rewrite Hdata, Ht.
    eexists. split; [reflexivity|]. cbn [page]. by rewrite <- !app_assoc.
Qed.

Lemma falsy_body_is_shown_as_fetch_failure_witness :
  (fetch_crypto_data (answers 200 (JObj [])) 0%Z "bitcoin" DAYS (fresh_page cold)).1
    = Ok (JObj []) ∧
  ∃ w', rerun (answers 200 (JObj [])) 0%Z 0%Z "BTC" cold = (Ok (), w') ∧
        page w' =
          header ++
          [info ("Fetching latest data for " +:+ str_title "bitcoin" +:+ "...");
           error "Failed to fetch data from the API. Please try again later."] ++
          trailer 0%Z 0%Z.
Proof.
  apply (falsy_body_is_shown_as_fetch_failure (answers 200 (JObj [])) 0%Z 0%Z "BTC"
           "bitcoin" cold
           {| requests.url := market_chart_url "bitcoin" DAYS;
              requests.status_code := 200; requests.reason := "OK";
              requests.body := inr (JObj []) |} (JObj []));
    reflexivity.
Defined.

Lemma amounts_as_floats (ps : list (Z * float)) :
  (λ e, JFloat e.2) <$> ps = JFloat <$> ps.*2.
Proof. by rewrite <- list_fmap_compose. Qed.

(** The presenter on a date-indexed table of float64 prices ending in
    [prev; latest] and float64 volumes ending in [last_volume]. *)
Lemma presenter_draws_dashboard name ts stamps
  (front : list float) (prev latest : float) (vfront : list float) (last_volume : float) w :
  ts ≠ [] →
  let price := Values (JFloat <$> front ++ [prev; latest]) in
  let volume := Values (JFloat <$> vfront ++ [last_volume]) in
  let m := {| latest_price := latest; prev_price := prev;
              price_change := latest - prev;
              price_change_pct := ((latest - prev) / prev) * 100 |}%float in
  presenter name
    {| index := DatetimeIndex ts;
       columns := [("timestamp", stamps); ("price", price); ("volume", volume)] |} w =
  (Ok (), {| memo := memo w;
             page := page w ++ dashboard name (DatetimeIndex ts) price volume m last_volume;
             sent := sent w |}).
Proof.
  intros Hts. cbv zeta.
  assert (Series_getitem (DatetimeIndex ts) (Values (JFloat <$> vfront ++ [last_volume])) (-1)
            = Ok (JFloat last_volume)) as Hlast.
  { cbn [Series_getitem]. rewrite fmap_app. apply positional_last. }
  assert (np_float64 (Values (JFloat <$> vfront ++ [last_volume])) (JFloat last_volume)
            = Ok last_volume) as Hnp.
  { unfold np_float64. cbn [as_float]. rewrite float64_floats; [done|by destruct vfront]. }
  unfold presenter, empty, len. cbn [index Index_len columns is_nil].
  assert ((length ts =? 0) = false) as -> by (apply Nat.eqb_neq; by destruct ts).
  cbn [orb negb]. unfold mbind at 1 2, M_bind, st.bind. cbn [draw memo page sent lift].
  rewrite (key_metrics_ends ts _ front prev latest) by reflexivity.
  unfold metric_tiles, charts, mbind at 1 2 3 4 5 6 7 8 9 10 11 12, M_bind, st.bind.
  cbn [draw memo page sent lift getitem dict_getitem dict_get columns index
       String.eqb Ascii.eqb Bool.eqb].
  rewrite bind_Ok, Hlast, bind_Ok, Hnp.
  cbn [draw memo page sent latest_price price_change price_change_pct len index Index_len].
  unfold dashboard, draw.
  cbn [memo page sent latest_price price_change price_change_pct Index_len].
  rewrite <- !app_assoc. reflexivity.
Qed.

(** X13: a successfully fetched payload of N >= 2 aligned pairs with
    representable timestamps is rendered in full.  The run ends normally
    and draws, between the fetching notice and the footer, the metrics of
    the last two rows, the last volume and N, and then the line chart, the
    bar chart and the histogram over all N rows; it draws no banner. *)
Theorem aligned_rows_are_rendered net now count name id w r fields
  (front : list (Z * float)) (tp : Z) (prev : float) (tl : Z) (latest : float)
  (vfront : list (Z * float)) (tv : Z) (last_volume : float) :
  let ps := front ++ [(tp, prev); (tl, latest)] in
  let vs := vfront ++ [(tv, last_volume)] in
  dict_get name COIN_MAP = Some id →
  fresh w now id DAYS = false →
  net now (market_chart_url id DAYS) = inr r →
  requests.raise_for_status r = inr () →
  requests.body r = inr (JObj fields) →
  dict_get "prices" fields = Some (JArr (pair_row <$> ps)) →
  dict_get "total_volumes" fields = Some (JArr (pair_row <$> vs)) →
  length ps = length vs →
  Forall (λ e, in_bounds e.1 = true) ps →
  ∃ w', rerun net now count name w = (Ok (), w') ∧
        page w' =
          header ++
          [info ("Fetching latest data for " +:+ str_title id +:+ "...")] ++
          dashboard name
            (DatetimeIndex ((λ e, Timestamp (ms_to_ns e.1)) <$> ps))
            (Values ((λ e, JFloat e.2) <$> ps))
            (Values ((λ e, JFloat e.2) <$> vs))
            {| latest_price := latest; prev_price := prev;
               price_change := latest - prev;
               price_change_pct := ((latest - prev) / prev) * 100 |}%float
            last_volume ++
          trailer now count ∧
        length (List.filter is_chart (page w')) = 3 ∧
        List.existsb (λ e, match e with error _ | warning _ => true | _ => false end)
          (page w') = false.
Proof.
  cbv zeta. intros Hid Hf Hgot Hst Hbody Hp Hv Hlen Hb.
  rewrite (rerun_miss _ _ _ _ _ _ Hid Hf).
  assert (response_data (net now (market_chart_url id DAYS)) = inr (JObj fields)) as Hdata.
  { unfold response_data, requests.json. by rewrite Hgot, Hst, Hbody. }
  unfold fetched_world, fetched, notices. rewrite Hdata, (truthy_has_key _ _ _ Hp).
  unfold mbind, M_bind, st.bind, lift.
  rewrite (process_data_pairs _ _ _ Hp Hv) by (try done; by destruct front).
  assert ((λ e : Z * float, JFloat e.2) <$> front ++ [(tp, prev); (tl, latest)]
            = JFloat <$> front.*2 ++ [prev; latest]) as ->.
  { by rewrite amounts_as_floats, fmap_app. }
  assert ((λ e : Z * float, JFloat e.2) <$> vfront ++ [(tv, last_volume)]
            = JFloat <$> vfront.*2 ++ [last_volume]) as ->.
  { by rewrite amounts_as_floats, fmap_app. }
  rewrite presenter_draws_dashboard by (by destruct front).
  cbn [finish memo page sent]. eexists. split; [reflexivity|]. cbn [page].
  split; [by rewrite <- !app_assoc|]. split; reflexivity.
Qed.

Lemma aligned_rows_are_rendered_witness :
  ∃ w', rerun (answers 200 (JObj two_rows)) 0%Z 0%Z "BTC" cold = (Ok (), w') ∧
        page w' =
          header ++
          [info ("Fetching latest data for " +:+ str_title "bitcoin" +:+ "...")] ++
          dashboard "BTC"
            (DatetimeIndex ((λ e, Timestamp (ms_to_ns e.1)) <$> two_prices))
            (Values ((λ e, JFloat e.2) <$> two_prices))
            (Values ((λ e, JFloat e.2) <$> two_volumes))
            {| latest_price := 110; prev_price := 100;
               price_change := 110 - 100;
               price_change_pct := ((110 - 100) / 100) * 100 |}%float
            6%float ++
          trailer 0%Z 0%Z ∧
        length (List.filter is_chart (page w')) = 3 ∧
        List.existsb (λ e, match e with error _ | warning _ => true | _ => false end)
          (page w') = false.
Proof.
  apply (aligned_rows_are_rendered (answers 200 (JObj two_rows)) 0%Z 0%Z "BTC" "bitcoin" cold
           {| requests.url := market_chart_url "bitcoin" DAYS;
              requests.status_code := 200; requests.reason := "OK";
              requests.body := inr (JObj two_rows) |}
           two_rows [] 1700000000000%Z 100%float 1700000060000%Z 110%float
           [(1700000000000%Z, 5%float)] 1700000060000%Z 6%float);
    try reflexivity.
  repeat constructor.
Defined.

(** X14: a rerun with the same selection less than 600 seconds after a run
    that went to the network repeats that run: it ends the same way (the
    same exception, if there was one) and shows the same page up to the
    footer, which carries the new time and refresh count; it sends
    nothing, whatever the network would answer now. *)
Theorem rerun_within_ttl_repeats_the_run net net' (t0 t count0 count : Z) name id w :
  dict_get name COIN_MAP = Some id →
  fresh w t0 id DAYS = false →
  (t < t0 + 600 * 1000)%Z →
  ∃ shown,
    rerun net t0 count0 name w = finish t0 count0 shown ∧
    rerun net' t count name (rerun net t0 count0 name w).2 = finish t count shown ∧
    sent (rerun net' t count name (rerun net t0 count0 name w).2).2
      = sent (rerun net t0 count0 name w).2.
Proof.
  intros Hid Hf Ht.
  set (got := net t0 (market_chart_url id DAYS)).
  set (shown := render name (fetched got) (fetched_world net t0 id w)).
  assert (rerun net t0 count0 name w = finish t0 count0 shown) as Hfirst
    by (by apply rerun_miss_render).
  destruct (finish_quiet t0 count0 shown) as [Hs Hm].
  destruct (quiet_render name (fetched got) (fetched_world net t0 id w)) as [Hs' Hm'].
  fold shown in Hs', Hm'.
  set (e := {| stored_at := t0; value := fetched got; replay := notices id got |}).
  assert (rerun net' t count name (finish t0 count0 shown).2 = finish t count shown) as Hnext.
  { rewrite (rerun_hit net' t count name id _ e Hid).
    - unfold replayed_world. rewrite Hs, Hm, Hs', Hm'. reflexivity.
    - rewrite Hm, Hm'. apply lookup_insert_eq.
    - unfold e. cbn [stored_at]. unfold ttl. lia. }
  exists shown. rewrite Hfirst. split; [done|]. split; [done|].
  rewrite Hnext. by rewrite !(proj1 (finish_quiet _ _ _)).
Qed.

Lemma rerun_within_ttl_repeats_the_run_witness :
  ∃ shown,
    rerun (answers 200 one_row) 0%Z 0%Z "BTC" cold = finish 0%Z 0%Z shown ∧
    rerun down 15000%Z 1%Z "BTC" (rerun (answers 200 one_row) 0%Z 0%Z "BTC" cold).2
      = finish 15000%Z 1%Z shown ∧
    sent (rerun down 15000%Z 1%Z "BTC" (rerun (answers 200 one_row) 0%Z 0%Z "BTC" cold).2).2
      = sent (rerun (answers 200 one_row) 0%Z 0%Z "BTC" cold).2.
Proof.
  apply (rerun_within_ttl_repeats_the_run (answers 200 one_row) down 0%Z 15000%Z 0%Z 1%Z
           "BTC" "bitcoin" cold).
  - reflexivity.
  - reflexivity.
  - lia.
Defined.
